(** * System-Design-Copilot: the staged generation pipeline

    A shallow embedding of [backend/tools.py], [backend/schemas.py] and
    [backend/agent.py], and the properties of the estimator, the risk
    classifier, the generation client and the pipeline controller.

    Conventions of the embedding.
    - Python [int] is [Z], without bound.  Python [float] is a rational
      [Q].  Where an [int] becomes a [float] (an [int] operand of a float
      operation, the quotient of two [int]s) the conversion raises
      [OverflowError] beyond the binary64 range, as CPython does.  The finite
      arithmetic is the exact one: the rounding error of each single binary64
      operation, infinities and NaN are outside the model, and a property
      that is sensitive to them is stated for arguments in the range where
      the error cannot decide it.  [round(x, n)] is the decimal
      round-half-to-even that CPython applies to the exact value of its
      argument; a returned number is read as the decimal it prints as.
    - Python [str] is [string], read as ASCII text.
    - A raised exception is a value of [exn]; code that can raise returns a
      [result], effectful code lives in the monad [M]. *)

From Stdlib Require Import ZArith QArith Qround Qabs Qminmax Lqa Lia Ascii.
From stdpp Require Import base list strings gmap pretty.

Local Open Scope Z_scope.

(** ** Exceptions and results *)

Inductive exn : Type :=
  | ZeroDivisionError
  | AttributeError
  | TypeError
  | ValidationError
  | KeyError
  | ServiceError (msg : string)
  | JSONDecodeError (msg : string)
  | OverflowError (msg : string).

Inductive result (A : Type) : Type :=
  | Ok (a : A)
  | Raise (e : exn).
Arguments Ok {A} a.
Arguments Raise {A} e.

Definition rbind {A B} (r : result A) (k : A → result B) : result B :=
  match r with
  | Ok a => k a
  | Raise e => Raise e
  end.

(** ** Python numerics *)

Module PyNum.

(** [max(a, b)]: the first argument unless the second is strictly larger. *)
Definition py_max (a b : Q) : Q := if Qlt_le_dec a b then b else a.

(** [a / b] on floats. *)
Definition py_truediv (a b : Q) : result Q :=
  if Qeq_bool b 0 then Raise ZeroDivisionError else Ok (a / b)%Q.

(** The least magnitude without a binary64 value: halfway between the
    largest float, 2^1024 - 2^971, and 2^1024, where rounding to even goes
    up. *)
Definition FLOAT_OVERFLOW : Z := 2 ^ 1024 - 2 ^ 970.

(** The conversion of an [int] operand of a float operation, as in
    [n * 0.1]. *)
Definition float_of_int (n : Z) : result Q :=
  if Z.abs n <? FLOAT_OVERFLOW then Ok (inject_Z n)
  else Raise (OverflowError "int too large to convert to float").

(** [a / b] on two [int]s. *)
Definition int_truediv (a b : Z) : result Q :=
  if b =? 0 then Raise ZeroDivisionError
  else if Z.abs a <? FLOAT_OVERFLOW * Z.abs b then Ok (inject_Z a / inject_Z b)%Q
  else Raise (OverflowError "integer division result too large for a float").

(** Nearest integer, ties to the even one. *)
Definition round_half_even (x : Q) : Z :=
  let f := Qfloor x in
  match ((x - inject_Z f) ?= (1 # 2))%Q with
  | Lt => f
  | Gt => f + 1
  | Eq => if Z.even f then f else f + 1
  end.

(** [round(x, ndigits)] for a float [x] and [ndigits >= 0]. *)
Definition py_round (x : Q) (ndigits : nat) : Q :=
  let scale := Z.to_pos (10 ^ Z.of_nat ndigits) in
  (round_half_even (x * inject_Z (Z.pos scale)) # scale)%Q.

(** [math.isclose(a, b, rel_tol=rel_tol)] (with the default [abs_tol=0]). *)
Definition isclose (a b rel_tol : Q) : Prop :=
  (Qabs (a - b) <= rel_tol * Qmax (Qabs a) (Qabs b))%Q.

End PyNum.

(** ** Python strings *)

Module PyStr.

Definition newline : string := String (Ascii.ascii_of_nat 10) "".

(** [str.upper()] on ASCII text. *)
Definition upper_char (c : ascii) : ascii :=
  let n := Ascii.N_of_ascii c in
  if ((97 <=? n) && (n <=? 122))%N then Ascii.ascii_of_N (n - 32) else c.

Fixpoint upper (s : string) : string :=
  match s with
  | EmptyString => EmptyString
  | String c s' => String (upper_char c) (upper s')
  end.

(** [sep.join(parts)]. *)
Definition join (sep : string) (parts : list string) : string :=
  String.concat sep parts.

(** [x in {s1, ..., sn}] for a set literal of strings. *)
Definition str_in (x : string) (lits : list string) : bool :=
  existsb (String.eqb x) lits.

(** [str(n)] for an [int]. *)
Definition str_of_int (n : Z) : string := pretty n.

(** [str.isspace()] on one ASCII character. *)
Definition is_space (c : ascii) : bool :=
  let n := Ascii.N_of_ascii c in
  (((9 <=? n) && (n <=? 13)) || ((28 <=? n) && (n <=? 32)))%N.

Fixpoint lstrip (s : string) : string :=
  match s with
  | EmptyString => EmptyString
  | String c s' => if is_space c then lstrip s' else s
  end.

Definition rev_string (s : string) : string :=
  String.string_of_list_ascii (rev (String.list_ascii_of_string s)).

Definition rstrip (s : string) : string := rev_string (lstrip (rev_string s)).

(** [s.strip()]. *)
Definition strip (s : string) : string := rstrip (lstrip s).

(** [s.startswith(p)]. *)
Definition startswith (s p : string) : bool := String.prefix p s.

(** [s[a:-b]] for literal [a, b >= 0] with [b > 0]. *)
Definition slice_inner (s : string) (a b : nat) : string :=
  String.substring a (String.length s - b - a) s.

End PyStr.

(** ** [backend/tools.py] *)

Module Tools.
Import PyNum PyStr.

Record QpsDict : Type := {
  base_qps : Q;
  peak_qps : Q;
  read_qps : Q;
  write_qps : Q
}.

Record StorageDict : Type := {
  daily_gb : Q;
  total_gb_retention : Q;
  monthly_growth_gb : Q
}.

Definition calc_qps (dau peak_concurrency : Z)
    (read_write_ratio burst_factor : Q) : result QpsDict :=
  rbind (float_of_int dau) (λ dau_f,
  rbind (int_truediv peak_concurrency 10) (λ per_ten,
  let base := py_max (dau_f * 0.1 / 86400)%Q per_ten in
  let peak := (base * burst_factor)%Q in
  rbind (py_truediv read_write_ratio (1 + read_write_ratio)%Q) (λ share,
  let read := (peak * share)%Q in
  let write := (peak - read)%Q in
  Ok {| base_qps := py_round base 2;
        peak_qps := py_round peak 2;
        read_qps := py_round read 2;
        write_qps := py_round write 2 |}))).

(** The default of the keyword argument [burst_factor]. *)
Definition calc_qps_default_burst : Q := 1.5%Q.

Definition calc_storage (records_per_user : Z) (avg_record_size_kb : Q)
    (retention_days dau : Z) : StorageDict :=
  let daily := (inject_Z dau * inject_Z records_per_user
                * avg_record_size_kb / 1024 / 1024)%Q in
  let total := (daily * inject_Z retention_days)%Q in
  let monthly := (daily * 30)%Q in
  {| daily_gb := py_round daily 3;
     total_gb_retention := py_round total 3;
     monthly_growth_gb := py_round monthly 3 |}.

Definition generate_mermaid_flow (components flows : list string) : string :=
  let lines := ["flowchart TD"] in
  let lines := foldl (λ lines comp, lines ++ ["  " +:+ comp]) lines components in
  let lines := foldl (λ lines flow, lines ++ ["  " +:+ flow]) lines flows in
  join newline lines.

Definition generate_mermaid_components (components : list string) : string :=
  let lines := ["graph LR"] in
  let lines := foldl (λ lines comp, lines ++ ["  " +:+ comp]) lines components in
  join newline lines.

Definition PHI_ADVISORY : string :=
  "PHI present: require HIPAA controls, BAA, access logging".
Definition PCI_ADVISORY : string :=
  "PCI data: segment card data environment, tokenization, yearly SAQ".
Definition PII_ADVISORY : string :=
  "PII present: need data minimization, DSR workflows, encryption at rest".
Definition GENERIC_ADVISORY : string :=
  "Standard web-app risks: OWASP Top 10, SSRF, IDOR, rate limiting".

Definition is_health_tag (flag : string) : bool := str_in (upper flag) ["HIPAA"; "PHI"].
Definition is_card_tag (flag : string) : bool := str_in (upper flag) ["PCI"; "CARD"].
Definition is_personal_tag (flag : string) : bool := String.eqb (upper flag) "PII".

Definition risk_checklist (compliance_flags data_types : list string) : list string :=
  let risks := [] in
  let risks :=
    if existsb is_health_tag (compliance_flags ++ data_types)
    then risks ++ [PHI_ADVISORY] else risks in
  let risks :=
    if existsb is_card_tag (compliance_flags ++ data_types)
    then risks ++ [PCI_ADVISORY] else risks in
  let risks :=
    if existsb is_personal_tag data_types
    then risks ++ [PII_ADVISORY] else risks in
  let risks :=
    match risks with
    | [] => risks ++ [GENERIC_ADVISORY]
    | _ => risks
    end in
  risks.

End Tools.

(** ** [backend/schemas.py] *)

Module Schemas.

Record InputPayload : Type := {
  app_name : string;
  description : string;
  dau : Z;
  peak_rps : Z;
  read_write_ratio : Q;
  regions : list string;
  budget_level : string;
  domain : option string;
  end_users : option string;
  user_roles : list string;
  peak_concurrent_users : option Z;
  traffic_pattern : string;
  data_types : list string;
  compliance : list string;
  latency_target_ms_p50 : option Z;
  latency_target_ms_p95 : option Z;
  availability_target : option Q;
  rpo_hours : option Q;
  rto_hours : option Q;
  apis_needed : list string;
  api_rate_limits_rpm : option Z;
  team_size : option Z;
  special_constraints : list string
}.

(** Defaults of the optional fields ([Field(default=...)]). *)
Definition default_regions : list string := ["us-east"].
Definition default_budget_level : string := "medium".
Definition default_traffic_pattern : string := "steady".

(** A [Field(None, ...)] constraint applies only to a supplied value. *)
Definition opt_ok {A} (ok : A → bool) (o : option A) : bool :=
  match o with
  | None => true
  | Some x => ok x
  end.

Definition validate_budget (v : string) : bool :=
  PyStr.str_in v ["low"; "medium"; "high"].

Definition validate_pattern (v : string) : bool :=
  PyStr.str_in v ["steady"; "spiky"].

Definition fields_ok (p : InputPayload) : bool :=
  (1 <=? dau p)
  && (1 <=? peak_rps p)
  && negb (Qle_bool (read_write_ratio p) 0)
  && opt_ok (Z.leb 1) (peak_concurrent_users p)
  && opt_ok (Z.leb 1) (latency_target_ms_p50 p)
  && opt_ok (Z.leb 1) (latency_target_ms_p95 p)
  && opt_ok (λ a, Qle_bool 0.9 a && Qle_bool a 1) (availability_target p)
  && opt_ok (Qle_bool 0) (rpo_hours p)
  && opt_ok (Qle_bool 0) (rto_hours p)
  && opt_ok (Z.leb 0) (api_rate_limits_rpm p)
  && opt_ok (Z.leb 1) (team_size p)
  && validate_budget (budget_level p)
  && validate_pattern (traffic_pattern p).

(** Construction of an [InputPayload]: the validated model, or
    [ValidationError]. *)
Definition InputPayload_validate (p : InputPayload) : result InputPayload :=
  if fields_ok p then Ok p else Raise ValidationError.

(** A valid RunInput. *)
Definition valid (p : InputPayload) : Prop := fields_ok p = true.

End Schemas.

(** ** Dynamically typed values

    What [json.loads] returns, and what the stages pass on unchanged. *)

#[warnings="-register-all"]
Inductive pyval : Type :=
  | PNone
  | PBool (b : bool)
  | PInt (n : Z)
  | PFloat (q : Q)
  | PStr (s : string)
  | PList (l : list pyval)
  | PDict (kv : list (string * pyval)).

Module PyVal.

(** Truth value of an object ([bool(v)]). *)
Definition truthy (v : pyval) : bool :=
  match v with
  | PNone => false
  | PBool b => b
  | PInt n => negb (n =? 0)
  | PFloat q => negb (Qeq_bool q 0)
  | PStr s => negb (String.eqb s "")
  | PList l => match l with [] => false | _ => true end
  | PDict kv => match kv with [] => false | _ => true end
  end.

Fixpoint assoc (k : string) (kv : list (string * pyval)) : option pyval :=
  match kv with
  | [] => None
  | (k', v) :: kv' => if String.eqb k k' then Some v else assoc k kv'
  end.

(** [d.get(k, default)]; only a dict has the method. *)
Definition dict_get (d : pyval) (k : string) (default : pyval) : result pyval :=
  match d with
  | PDict kv => Ok (from_option id default (assoc k kv))
  | _ => Raise AttributeError
  end.

(** [d[k]] on a dict literal of the source. *)
Definition item (d : pyval) (k : string) : pyval :=
  match d with
  | PDict kv => from_option id PNone (assoc k kv)
  | _ => PNone
  end.

(** [x or default] where [x = state.get(k)]. *)
Definition get_or (x : option pyval) (default : pyval) : pyval :=
  match x with
  | Some v => if truthy v then v else default
  | None => default
  end.

(** [for x in v]: the items a [for] loop sees. *)
Definition py_iter (v : pyval) : result (list pyval) :=
  match v with
  | PList l => Ok l
  | PStr s => Ok (map (λ c, PStr (String c "")) (String.list_ascii_of_string s))
  | PDict kv => Ok (map (λ p, PStr p.1) kv)
  | _ => Raise TypeError
  end.

Definition strs (l : list string) : pyval := PList (map PStr l).

End PyVal.

Import PyNum PyStr Tools Schemas PyVal.

(** ** [backend/agent.py] *)

Module Agent.

(** *** The world outside the process

    The chat messages sent to the generation service, in order, and the
    lines printed to standard output. *)

Inductive Message : Type :=
  | SystemMessage (content : string)
  | HumanMessage (content : string).

Record World : Type := {
  llm_calls : list (list Message);
  stdout : list string
}.

Definition M (A : Type) : Type := World → result A * World.

Definition ret {A} (a : A) : M A := λ w, (Ok a, w).

Definition bind {A B} (m : M A) (k : A → M B) : M B :=
  λ w, match m w with
       | (Ok a, w') => k a w'
       | (Raise e, w') => (Raise e, w')
       end.

Definition lift {A} (r : result A) : M A := λ w, (r, w).

(** [try: body  except Exception as e: handler(e)]. *)
Definition try_except {A} (body : M A) (handler : exn → M A) : M A :=
  λ w, match body w with
       | (Ok a, w') => (Ok a, w')
       | (Raise e, w') => handler e w'
       end.

Definition print (line : string) : M unit :=
  λ w, (Ok tt, {| llm_calls := llm_calls w; stdout := stdout w ++ [line] |}).

Declare Scope py_scope.
Delimit Scope py_scope with py.
Notation "x <- m ;; k" := (bind m (λ x, k))
  (at level 100, m at next level, right associativity) : py_scope.
Notation "m ;;; k" := (bind m (λ _, k))
  (at level 100, right associativity) : py_scope.
Local Open Scope py_scope.

(** [ChatOpenAI]: the answer of the service to a list of messages, given
    how many calls were made before; [Raise] is any failure of the call. *)
Definition ChatModel : Type := nat → list Message → result string.

(** The library functions the module relies on: [json.loads] and the
    [str()] of a value that is not a string. *)
Record Builtins : Type := {
  json_loads : string → result pyval;
  py_str : pyval → string
}.

(** [str(e)] of a caught exception. *)
Definition exn_str (e : exn) : string :=
  match e with
  | ZeroDivisionError => "float division by zero"
  | AttributeError => "object has no attribute"
  | TypeError => "unsupported operand"
  | ValidationError => "validation error"
  | KeyError => "key"
  | ServiceError msg => msg
  | JSONDecodeError msg => msg
  | OverflowError msg => msg
  end.

Record AgenticCopilot : Type := {
  mock_mode : bool;
  llm : option ChatModel
}.

(** [__init__]: [api_key] is [os.getenv("OPENAI_API_KEY")], [client] the
    [ChatOpenAI] instance that is built when a key is present. *)
Definition AgenticCopilot_init (api_key : option string) (client : ChatModel)
    : AgenticCopilot :=
  let mock := negb (from_option (λ k, negb (String.eqb k "")) false api_key) in
  {| mock_mode := mock;
     llm := if negb mock then Some client else None |}.

(** *** The shared state ([AgentState])

    A key of the dictionary is a field; [None] is an absent key.  A value
    that comes from the generation service is a [pyval]. *)

Record SizingDict : Type := {
  qps : QpsDict;
  storage : StorageDict;
  bandwidth_gbps : Q
}.

(** The value under ["sizing"]: the dictionary of the sizing stage, or [{}]. *)
Inductive SizingVal : Type :=
  | EmptyDict
  | SizingOf (s : SizingDict).

Record AgentState : Type := {
  input : option InputPayload;
  assumptions : option (list string);
  plan_steps : option (list string);
  sizing : option SizingVal;
  architecture_options : option pyval;
  recommended_option : option pyval;
  mermaid_flow : option string;
  mermaid_components : option string;
  api_design : option pyval;
  performance_plan : option (list string);
  reliability_plan : option (list string);
  security_plan : option pyval;
  threat_model : option pyval;
  observability : option pyval;
  summary : option pyval;
  tech_stack : option pyval;
  risks : option pyval;
  phased_rollout : option pyval
}.

(** How the graph engine merges the dictionary a node returns into the
    state: a key annotated with [operator.add] accumulates, any other key
    keeps the last value written.  A returned key that is no field of
    [AgentState] (the ["notes"] of the intake node) is dropped. *)
Definition reduce_add (old new : option (list string)) : option (list string) :=
  match old, new with
  | Some a, Some b => Some (a ++ b)
  | None, Some b => Some b
  | _, None => old
  end.

Definition last_value {A} (old new : option A) : option A :=
  match new with
  | Some v => Some v
  | None => old
  end.

Definition apply_update (s u : AgentState) : AgentState :=
  {| input := last_value (input s) (input u);
     assumptions := reduce_add (assumptions s) (assumptions u);
     plan_steps := reduce_add (plan_steps s) (plan_steps u);
     sizing := last_value (sizing s) (sizing u);
     architecture_options := last_value (architecture_options s) (architecture_options u);
     recommended_option := last_value (recommended_option s) (recommended_option u);
     mermaid_flow := last_value (mermaid_flow s) (mermaid_flow u);
     mermaid_components := last_value (mermaid_components s) (mermaid_components u);
     api_design := last_value (api_design s) (api_design u);
     performance_plan := last_value (performance_plan s) (performance_plan u);
     reliability_plan := last_value (reliability_plan s) (reliability_plan u);
     security_plan := last_value (security_plan s) (security_plan u);
     threat_model := last_value (threat_model s) (threat_model u);
     observability := last_value (observability s) (observability u);
     summary := last_value (summary s) (summary u);
     tech_stack := last_value (tech_stack s) (tech_stack u);
     risks := last_value (risks s) (risks u);
     phased_rollout := last_value (phased_rollout s) (phased_rollout u) |}.

(** [state["input"]]. *)
Definition get_input (state : AgentState) : result InputPayload :=
  match input state with
  | Some inp => Ok inp
  | None => Raise KeyError
  end.

(** *** Pure helpers of the nodes *)

(** [inp.get("traffic_pattern") or "steady"], then the burst multiplier. *)
Definition sizing_multiplier (inp : InputPayload) : Q :=
  let pat := if String.eqb (traffic_pattern inp) "" then "steady"
             else traffic_pattern inp in
  if String.eqb pat "spiky" then 1.8%Q else 1.4%Q.

(** [inp.get("peak_concurrent_users") or (inp["dau"] // 10)]. *)
Definition sizing_peak_concurrency (inp : InputPayload) : Z :=
  match peak_concurrent_users inp with
  | Some n => if n =? 0 then dau inp / 10 else n
  | None => dau inp / 10
  end.

(** The loop of [_final] that removes repeated assumptions: one iteration
    on the pair [(unique_assumptions, seen)]. *)
Definition dedup_step (acc : list string * gset string) (a : string)
    : list string * gset string :=
  if bool_decide (a ∈ acc.2) then acc
  else (acc.1 ++ [a], {[a]} ∪ acc.2).

Definition dedup (l : list string) : list string :=
  (foldl dedup_step ([], ∅) l).1.

(** [v + [x, y]]: defined when [v] is a list. *)
Definition py_add_list (v : pyval) (l : list pyval) : result pyval :=
  match v with
  | PList l0 => Ok (PList (l0 ++ l))
  | _ => Raise TypeError
  end.

Section WithBuiltins.
Variable py : Builtins.

Definition llm_invoke (self : AgenticCopilot) (messages : list Message) : M string :=
  match llm self with
  | None => lift (Raise AttributeError)
  | Some client =>
      λ w, (client (length (llm_calls w)) messages,
            {| llm_calls := llm_calls w ++ [messages]; stdout := stdout w |})
  end.

Definition JSON_ONLY : string :=
  newline +:+ "Respond ONLY with valid JSON. Do not include markdown code blocks or explanations.".

(** The messages of one request. *)
Definition llm_messages (system_prompt user_prompt : string) : list Message :=
  [SystemMessage (system_prompt +:+ JSON_ONLY); HumanMessage user_prompt].

(** The answer without surrounding white space and code fence. *)
Definition strip_code_fence (answer : string) : string :=
  let content := strip answer in
  if startswith content "```json" then strip (slice_inner content 7 3)
  else if startswith content "```" then strip (slice_inner content 3 3)
  else content.

Definition _call_llm (self : AgenticCopilot) (system_prompt user_prompt : string)
    (fallback : pyval) : M pyval :=
  if mock_mode self then ret fallback
  else
    try_except
      (let messages := llm_messages system_prompt user_prompt in
       res <- llm_invoke self messages;;
       let content := strip_code_fence res in
       lift (json_loads py content))
      (λ e, print ("LLM Error: " +:+ exn_str e);;; ret fallback).

(** What an f-string substitutes for a value. *)
Definition py_format (v : pyval) : string :=
  match v with
  | PStr s => s
  | PNone => "None"
  | PBool true => "True"
  | PBool false => "False"
  | PInt n => str_of_int n
  | _ => py_str py v
  end.

Definition format_items (v : pyval) : result (list string) :=
  rbind (py_iter v) (λ items, Ok (map py_format items)).

(** The two renderers applied to values of the service. *)
Definition render_flow (components flows : pyval) : result string :=
  rbind (format_items components) (λ cs,
  rbind (format_items flows) (λ fs,
  Ok (generate_mermaid_flow cs fs))).

Definition render_components (components : pyval) : result string :=
  rbind (format_items components) (λ cs, Ok (generate_mermaid_components cs)).

(** *** Node implementations *)

Definition _intake_validate (state : AgentState) : result AgentState :=
  rbind (get_input state) (λ raw,
  rbind (InputPayload_validate raw) (λ inp,
  Ok {| input := Some inp; assumptions := Some ["Inputs normalized"];
        plan_steps := None; sizing := None;
        architecture_options := None; recommended_option := None;
        mermaid_flow := None; mermaid_components := None; api_design := None;
        performance_plan := None; reliability_plan := None;
        security_plan := None; threat_model := None; observability := None;
        summary := None; tech_stack := None; risks := None;
        phased_rollout := None |})).

Definition _planner (state : AgentState) : result AgentState :=
  rbind (get_input state) (λ inp,
  let pat := traffic_pattern inp in
  let assumptions :=
    [ "Traffic pattern is " +:+ pat +:+ " with peak "
        +:+ str_of_int (peak_rps inp) +:+ " rps";
      "Regions: " +:+ join ", " (regions inp);
      "Budget level: " +:+ budget_level inp ] in
  let assumptions :=
    match domain inp with
    | Some d => if String.eqb d "" then assumptions
                else assumptions ++ ["Application domain: " +:+ d]
    | None => assumptions
    end in
  let needed :=
    ["sizing"; "architecture"; "api"; "performance"; "security"; "reliability"] in
  Ok {| input := None; assumptions := Some assumptions;
        plan_steps := Some needed; sizing := None;
        architecture_options := None; recommended_option := None;
        mermaid_flow := None; mermaid_components := None; api_design := None;
        performance_plan := None; reliability_plan := None;
        security_plan := None; threat_model := None; observability := None;
        summary := None; tech_stack := None; risks := None;
        phased_rollout := None |}).

Definition _sizing (state : AgentState) : result AgentState :=
  rbind (get_input state) (λ inp,
  let multiplier := sizing_multiplier inp in
  let peak_concurrency := sizing_peak_concurrency inp in
  rbind (calc_qps (dau inp) peak_concurrency (read_write_ratio inp) multiplier) (λ qps,
  let storage := calc_storage 12 8 365 (dau inp) in
  let bandwidth_gbps := py_round (peak_qps qps * 2 * 1024 / 1000000)%Q 3 in
  let sizing := {| qps := qps; storage := storage;
                   bandwidth_gbps := bandwidth_gbps |} in
  Ok {| input := None; assumptions := None; plan_steps := None;
        sizing := Some (SizingOf sizing);
        architecture_options := None; recommended_option := None;
        mermaid_flow := None; mermaid_components := None; api_design := None;
        performance_plan := None; reliability_plan := None;
        security_plan := None; threat_model := None; observability := None;
        summary := None; tech_stack := None; risks := None;
        phased_rollout := None |})).

Definition architecture_sys_p : string :=
  "You are a senior system architect. Generate architecture options for a new app.".

Definition architecture_user_p (inp : InputPayload) : string :=
  join newline
    [ "";
      "        App: " +:+ app_name inp;
      "        Description: " +:+ description inp;
      "        Scale: " +:+ str_of_int (dau inp) +:+ " DAU, "
        +:+ str_of_int (peak_rps inp) +:+ " Peak RPS";
      "        Budget: " +:+ budget_level inp;
      "";
      "        Return a JSON object with:";
      "        1. 'options': list of 2 options. Each with 'title' and 'bullets' (list of strings).";
      "        2. 'recommended_option': the title of the best option.";
      "        3. 'flows': list of mermaid-style edges (e.g. 'A[User]->B[LB]').";
      "        4. 'components': list of mermaid-style nodes (e.g. 'A[User]').";
      "        " ].

Definition default_options : pyval :=
  PList
    [ PDict [ ("title", PStr "MVP (monolith)");
              ("bullets", strs ["FastAPI + SQLite (dev) / Postgres (prod)";
                                "Redis cache"]) ];
      PDict [ ("title", PStr "Scale-out");
              ("bullets", strs ["Microservices on K8s"; "Managed DB (RDS)";
                                "Kafka for async"]) ] ].

Definition architecture_fallback (inp : InputPayload) : pyval :=
  PDict
    [ ("options", default_options);
      ("recommended_option",
        PStr (if String.eqb (budget_level inp) "low"
              then "MVP (monolith)" else "Scale-out"));
      ("flows", strs ["A[Client]-->B[LB]"; "B-->C[App Server]";
                      "C-->D[(Database)]"]);
      ("components", strs ["A[Client]"; "B[LB]"; "C[App Server]";
                           "D[(Database)]"]) ].

Definition _architecture (self : AgenticCopilot) (state : AgentState)
    : M AgentState :=
  inp <- lift (get_input state);;
  let fallback := architecture_fallback inp in
  res <- _call_llm self architecture_sys_p (architecture_user_p inp) fallback;;
  options <- lift (dict_get res "options" default_options);;
  recommended <- lift (dict_get res "recommended_option"
                                (item fallback "recommended_option"));;
  components <- lift (dict_get res "components" (item fallback "components"));;
  flows <- lift (dict_get res "flows" (item fallback "flows"));;
  flow_text <- lift (render_flow components flows);;
  components_text <- lift (render_components components);;
  ret {| input := None; assumptions := None; plan_steps := None;
         sizing := None;
         architecture_options := Some options;
         recommended_option := Some recommended;
         mermaid_flow := Some flow_text;
         mermaid_components := Some components_text;
         api_design := None;
         performance_plan := None; reliability_plan := None;
         security_plan := None; threat_model := None; observability := None;
         summary := None; tech_stack := None; risks := None;
         phased_rollout := None |}.

Definition apis_sys_p : string :=
  "You are a senior API designer. Generate relevant API endpoints for this app.".

Definition apis_user_p (inp : InputPayload) : string :=
  join newline
    [ "";
      "        App: " +:+ app_name inp;
      "        Description: " +:+ description inp;
      "        ";
      "        Return a JSON list of 3-4 API objects. Each object with: ";
      "        'method', 'path', 'description', 'request' (dict), 'response' (dict), 'rate_limit_rpm' (int), 'idempotent' (bool).";
      "        " ].

Definition apis_fallback : pyval :=
  PList
    [ PDict [ ("method", PStr "POST");
              ("path", PStr "/api/v1/resource");
              ("description", PStr "Create a new resource.");
              ("request", PDict [("name", PStr "string")]);
              ("response", PDict [("id", PStr "string")]);
              ("rate_limit_rpm", PInt 60);
              ("idempotent", PBool false) ] ].

Definition _apis (self : AgenticCopilot) (state : AgentState) : M AgentState :=
  inp <- lift (get_input state);;
  res <- _call_llm self apis_sys_p (apis_user_p inp) apis_fallback;;
  ret {| input := None; assumptions := None; plan_steps := None;
         sizing := None;
         architecture_options := None; recommended_option := None;
         mermaid_flow := None; mermaid_components := None;
         api_design := Some res;
         performance_plan := None; reliability_plan := None;
         security_plan := None; threat_model := None; observability := None;
         summary := None; tech_stack := None; risks := None;
         phased_rollout := None |}.

Definition _perf_rel (state : AgentState) : result AgentState :=
  let performance :=
    [ "Edge CDN for static assets, API behind reverse proxy with HTTP keep-alive";
      "Redis caching with 70-90% target hit rate for read-heavy endpoints";
      "Async workers for generating reports; queue depth alarms";
      "Pagination + index on created_at for submissions table";
      "Blue/green deploys and feature flags for rollouts" ] in
  let reliability :=
    [ "SLO: 99.5% availability, p95 < 400ms for analyze endpoint";
      "Retries with jitter for downstream LLM calls, idempotency keys on POST";
      "Backups daily, PITR for Postgres, replica in second region for DR (RPO 1h, RTO 4h)";
      "Health checks, autoscale based on queue length and CPU" ] in
  Ok {| input := None; assumptions := None; plan_steps := None;
        sizing := None;
        architecture_options := None; recommended_option := None;
        mermaid_flow := None; mermaid_components := None; api_design := None;
        performance_plan := Some performance;
        reliability_plan := Some reliability;
        security_plan := None; threat_model := None; observability := None;
        summary := None; tech_stack := None; risks := None;
        phased_rollout := None |}.

Definition security_sys_p : string :=
  "You are a security architect. Generate a security plan and threat model.".

Definition security_user_p (inp : InputPayload) : string :=
  join newline
    [ "";
      "        App: " +:+ app_name inp;
      "        Domain: " +:+ from_option id "None" (domain inp);
      "        Compliance: " +:+ join ", " (compliance inp);
      "        Data Types: " +:+ join ", " (data_types inp);
      "";
      "        Return a JSON object with:";
      "        1. 'security_plan': list of 5 security measures.";
      "        2. 'threat_model': list of 3 potential threats.";
      "        3. 'observability': list of 4 monitoring/logging measures.";
      "        " ].

(** [l or default] for a list of the input. *)
Definition list_or (l default : list string) : list string :=
  match l with
  | [] => default
  | _ => l
  end.

Definition fallback_threats (inp : InputPayload) : list string :=
  risk_checklist (list_or (compliance inp) ["SOC2"; "GDPR"])
                 (list_or (data_types inp) ["PII"]).

Definition security_fallback (inp : InputPayload) : pyval :=
  PDict
    [ ("security_plan", strs ["AuthN with OIDC"; "mTLS"; "Secrets Vault"; "WAF";
                              "Encryption at rest"]);
      ("threat_model", strs (fallback_threats inp));
      ("observability", strs ["Prometheus metrics"; "ELK logging";
                              "Jaeger tracing"; "PagerDuty alerts"]) ].

Definition _security (self : AgenticCopilot) (state : AgentState) : M AgentState :=
  inp <- lift (get_input state);;
  let fallback := security_fallback inp in
  res <- _call_llm self security_sys_p (security_user_p inp) fallback;;
  plan <- lift (dict_get res "security_plan" (item fallback "security_plan"));;
  threats <- lift (dict_get res "threat_model" (item fallback "threat_model"));;
  obs <- lift (dict_get res "observability" (item fallback "observability"));;
  ret {| input := None; assumptions := None; plan_steps := None;
         sizing := None;
         architecture_options := None; recommended_option := None;
         mermaid_flow := None; mermaid_components := None; api_design := None;
         performance_plan := None; reliability_plan := None;
         security_plan := Some plan;
         threat_model := Some threats;
         observability := Some obs;
         summary := None; tech_stack := None; risks := None;
         phased_rollout := None |}.

Definition final_sys_p : string :=
  "You are a senior technical lead. Finalize the system design report.".

Definition final_user_p (inp : InputPayload) (state : AgentState) : string :=
  join newline
    [ "";
      "        App: " +:+ app_name inp;
      "        Description: " +:+ description inp;
      "        Scale: " +:+ str_of_int (dau inp) +:+ " DAU";
      "        Budget: " +:+ budget_level inp;
      "        Architecture Recommended: "
        +:+ py_format (from_option id PNone (recommended_option state));
      "";
      "        Return a JSON object with:";
      "        1. 'summary': 1-2 sentence high-level summary.";
      "        2. 'tech_stack': list of 6-7 specific technologies (e.g. 'Frontend: React', 'DB: Postgres').";
      "        3. 'phased_rollout': list of 3 phases (MVP, v2, v3).";
      "        " ].

Definition final_fallback (inp : InputPayload) : pyval :=
  PDict
    [ ("summary", PStr ("System design for " +:+ app_name inp +:+ " supporting "
                        +:+ str_of_int (dau inp) +:+ " DAU."));
      ("tech_stack", strs ["FastAPI"; "Postgres"; "Redis"; "Docker"; "AWS"]);
      ("phased_rollout", strs ["Phase 1: MVP"; "Phase 2: Scale";
                               "Phase 3: Global"]) ].

Definition CAUTION_LLM : string :=
  "LLM dependency latency/availability; keep mock fallback".
Definition CAUTION_COST : string :=
  "Cost overrun if prompt volume spikes; add budget guardrails".

Definition _final (self : AgenticCopilot) (state : AgentState) : M AgentState :=
  inp <- lift (get_input state);;
  let fallback := final_fallback inp in
  res <- _call_llm self final_sys_p (final_user_p inp state) fallback;;
  let sizing := from_option id EmptyDict (sizing state) in
  risks <- lift (py_add_list (get_or (threat_model state) (PList []))
                             [PStr CAUTION_LLM; PStr CAUTION_COST]);;
  let unique_assumptions := dedup (from_option id [] (assumptions state)) in
  summary <- lift (dict_get res "summary" (item fallback "summary"));;
  tech_stack <- lift (dict_get res "tech_stack" (item fallback "tech_stack"));;
  phased_rollout <- lift (dict_get res "phased_rollout"
                                   (item fallback "phased_rollout"));;
  ret {| input := None;
         plan_steps := None;
         summary := Some summary;
         assumptions := Some unique_assumptions;
         architecture_options :=
           Some (get_or (architecture_options state) (PList []));
         recommended_option :=
           Some (get_or (recommended_option state) (PStr "N/A"));
         tech_stack := Some tech_stack;
         sizing := Some sizing;
         api_design := Some (get_or (api_design state) (PList []));
         performance_plan := Some (from_option id [] (performance_plan state));
         security_plan := Some (get_or (security_plan state) (PList []));
         reliability_plan := Some (from_option id [] (reliability_plan state));
         risks := Some risks;
         phased_rollout := Some phased_rollout;
         mermaid_flow := Some (from_option id "" (mermaid_flow state));
         mermaid_components := Some (from_option id "" (mermaid_components state));
         observability := Some (get_or (observability state) (PList []));
         threat_model := Some (get_or (threat_model state) (PList [])) |}.

(** *** The graph

    [_build_graph] registers the eight nodes under their names, makes
    ["intake_validate"] the entry point and chains the nodes by
    unconditional edges up to [END].  The compiled workflow follows the
    edges from the entry point and runs the nodes it meets, merging each
    returned dictionary into the state. *)
Definition Node : Type := AgentState → M AgentState.

Definition END : string := "__end__".

Record StateGraph : Type := {
  nodes : list (string * Node);
  entry_point : string;
  edges : list (string * string)
}.

Definition _build_graph (self : AgenticCopilot) : StateGraph :=
  {| nodes :=
       [ ("intake_validate", λ s, lift (_intake_validate s));
         ("planner", λ s, lift (_planner s));
         ("sizing_estimator", λ s, lift (_sizing s));
         ("architecture_generator", _architecture self);
         ("api_designer", _apis self);
         ("performance_reliability", λ s, lift (_perf_rel s));
         ("security_compliance", _security self);
         ("final_report", _final self) ];
     entry_point := "intake_validate";
     edges :=
       [ ("intake_validate", "planner");
         ("planner", "sizing_estimator");
         ("sizing_estimator", "architecture_generator");
         ("architecture_generator", "api_designer");
         ("api_designer", "performance_reliability");
         ("performance_reliability", "security_compliance");
         ("security_compliance", "final_report");
         ("final_report", END) ] |}.

Fixpoint named {A} (name : string) (l : list (string * A)) : option A :=
  match l with
  | [] => None
  | (n, a) :: l' => if String.eqb name n then Some a else named name l'
  end.

(** The nodes in the order the edges give, starting at [current]. *)
Fixpoint chain (fuel : nat) (g : StateGraph) (current : string) : list Node :=
  match fuel with
  | O => []
  | S fuel' =>
      match named current (nodes g) with
      | None => []
      | Some node =>
          node :: match named current (edges g) with
                  | Some next => chain fuel' g next
                  | None => []
                  end
      end
  end.

Definition compile (g : StateGraph) : list Node :=
  chain (length (nodes g)) g (entry_point g).

Definition workflow (self : AgenticCopilot) : list Node :=
  compile (_build_graph self).

Definition run_node (node : Node) (state : AgentState) : M AgentState :=
  update <- node state;;
  ret (apply_update state update).

Fixpoint invoke (nodes : list Node) (state : AgentState) : M AgentState :=
  match nodes with
  | [] => ret state
  | node :: rest => state' <- run_node node state;; invoke rest state'
  end.

(** The state [run] starts from: the dumped payload under ["input"]. *)
Definition initial_state (payload : InputPayload) : AgentState :=
  {| input := Some payload; assumptions := None; plan_steps := None;
     sizing := None;
     architecture_options := None; recommended_option := None;
     mermaid_flow := None; mermaid_components := None; api_design := None;
     performance_plan := None; reliability_plan := None;
     security_plan := None; threat_model := None; observability := None;
     summary := None; tech_stack := None; risks := None;
     phased_rollout := None |}.

Definition run (self : AgenticCopilot) (payload : InputPayload) : M AgentState :=
  invoke (workflow self) (initial_state payload).

End WithBuiltins.

End Agent.

Import Agent.

(** ** Sample inputs

    [valid_payload] is the payload of [tests/test_validation.py]. *)

Definition valid_payload : InputPayload :=
  {| app_name := "TestApp"; description := "desc"; dau := 1000; peak_rps := 50;
     read_write_ratio := 3; regions := ["us-east"]; budget_level := "medium";
     domain := Some "fintech"; end_users := None; user_roles := [];
     peak_concurrent_users := None; traffic_pattern := "steady";
     data_types := []; compliance := []; latency_target_ms_p50 := None;
     latency_target_ms_p95 := None; availability_target := None;
     rpo_hours := None; rto_hours := None; apis_needed := [];
     api_rate_limits_rpm := None; team_size := None; special_constraints := [] |}.

(** Same dau, every other estimator input different. *)
Definition spiky_payload : InputPayload :=
  {| app_name := "Clinic"; description := "appointments"; dau := 1000;
     peak_rps := 900; read_write_ratio := 0.5; regions := ["eu-west"; "us-east"];
     budget_level := "low"; domain := Some "health"; end_users := Some "b2b";
     user_roles := ["nurse"]; peak_concurrent_users := Some 500;
     traffic_pattern := "spiky"; data_types := ["phi"; "PII"];
     compliance := ["HIPAA"]; latency_target_ms_p50 := Some 50;
     latency_target_ms_p95 := Some 400; availability_target := Some 0.99%Q;
     rpo_hours := Some 1%Q; rto_hours := Some 4%Q; apis_needed := ["booking"];
     api_rate_limits_rpm := Some 600; team_size := Some 5;
     special_constraints := [] |}.

(** The end-to-end scenario: the five given fields, the defaults of the
    schema for the optional ones, any name and description. *)
Definition scenario_input (name desc : string) : InputPayload :=
  {| app_name := name; description := desc; dau := 1000; peak_rps := 50;
     read_write_ratio := 3; regions := default_regions; budget_level := "medium";
     domain := None; end_users := None; user_roles := [];
     peak_concurrent_users := None; traffic_pattern := "steady";
     data_types := []; compliance := []; latency_target_ms_p50 := None;
     latency_target_ms_p95 := None; availability_target := None;
     rpo_hours := None; rto_hours := None; apis_needed := [];
     api_rate_limits_rpm := None; team_size := None; special_constraints := [] |}.

(** A copilot without credential, and one with a credential whose service
    is down; a [json.loads] that rejects every text. *)
Definition service_down : ChatModel := λ _ _, Raise (ServiceError "connection refused").
Definition offline_copilot : AgenticCopilot := AgenticCopilot_init None service_down.
Definition online_copilot : AgenticCopilot := AgenticCopilot_init (Some "sk-test") service_down.
Definition strict_builtins : Builtins :=
  {| json_loads := λ _, Raise (JSONDecodeError "Expecting value");
     py_str := λ _, "" |}.
Definition fresh_world : World := {| llm_calls := []; stdout := [] |}.

(** ** Reference definitions

    Removal of repeated entries as the specification words it: the first
    occurrence of an entry stays where it is, every later one goes. *)

Fixpoint keep_first (l : list string) : list string :=
  match l with
  | [] => []
  | x :: l' => x :: filter (λ y, y ≠ x) (keep_first l')
  end.

(** The fields of the final report ([OutputPayload]) are all present. *)
Definition complete_output (s : AgentState) : Prop :=
  is_Some (summary s) ∧ is_Some (assumptions s)
  ∧ is_Some (architecture_options s) ∧ is_Some (recommended_option s)
  ∧ is_Some (tech_stack s) ∧ is_Some (sizing s) ∧ is_Some (api_design s)
  ∧ is_Some (performance_plan s) ∧ is_Some (security_plan s)
  ∧ is_Some (reliability_plan s) ∧ is_Some (risks s)
  ∧ is_Some (phased_rollout s) ∧ is_Some (mermaid_flow s)
  ∧ is_Some (mermaid_components s) ∧ is_Some (observability s)
  ∧ is_Some (threat_model s).

(** Two nodes agree when, on every state, they return the same result and
    both leave the world as it was. *)
Definition agree (n1 n2 : Node) : Prop :=
  ∀ (st : AgentState) (w1 w2 : World),
    ∃ r, n1 st w1 = (r, w1) ∧ n2 st w2 = (r, w2).

(** A service that answers its first request (the architecture request of a
    run) with an object whose recommended option is the empty string and
    fails afterwards, and a [json.loads] that knows this one text. *)
Definition dquote : string := String (Ascii.ascii_of_nat 34) "".

Definition EMPTY_RECOMMENDATION : string :=
  "{" +:+ dquote +:+ "recommended_option" +:+ dquote +:+ ": "
      +:+ dquote +:+ dquote +:+ "}".

Definition service_empty_recommendation : ChatModel :=
  λ n _, match n with
         | O => Ok EMPTY_RECOMMENDATION
         | _ => Raise (ServiceError "connection refused")
         end.

Definition loads_empty_recommendation : Builtins :=
  {| json_loads := λ text,
       if String.eqb text EMPTY_RECOMMENDATION
       then Ok (PDict [("recommended_option", PStr "")])
       else Raise (JSONDecodeError "Expecting value");
     py_str := λ _, "" |}.

(** A state in which earlier nodes have emitted some assumptions twice. *)
Definition state_with_repeats : AgentState :=
  {| input := Some valid_payload;
     assumptions := Some ["Inputs normalized"; "Regions: us-east";
                          "Inputs normalized"; "Budget level: medium";
                          "Regions: us-east"];
     plan_steps := None; sizing := None;
     architecture_options := None; recommended_option := None;
     mermaid_flow := None; mermaid_components := None; api_design := None;
     performance_plan := None; reliability_plan := None;
     security_plan := None; threat_model := None; observability := None;
     summary := None; tech_stack := None; risks := None;
     phased_rollout := None |}.

(** [s.split(sep)] for a separator of one character, and the test that
    a string holds no line break. *)
Fixpoint split_on (sep : ascii) (s : string) : list string :=
  match s with
  | EmptyString => [""]
  | String c s' =>
      if Ascii.eqb c sep then "" :: split_on sep s'
      else match split_on sep s' with
           | line :: lines => String c line :: lines
           | [] => [String c ""]
           end
  end.

Definition NEWLINE_CHAR : ascii := Ascii.ascii_of_nat 10.

Fixpoint single_line (s : string) : bool :=
  match s with
  | EmptyString => true
  | String c s' => negb (Ascii.eqb c NEWLINE_CHAR) && single_line s'
  end.

(** The two invalid payloads of [tests/test_validation.py]. *)
Definition ultra_budget_payload : InputPayload :=
  {| app_name := "TestApp"; description := "desc"; dau := 1000; peak_rps := 50;
     read_write_ratio := 3; regions := ["us-east"]; budget_level := "ultra";
     domain := Some "fintech"; end_users := None; user_roles := [];
     peak_concurrent_users := None; traffic_pattern := "steady";
     data_types := []; compliance := []; latency_target_ms_p50 := None;
     latency_target_ms_p95 := None; availability_target := None;
     rpo_hours := None; rto_hours := None; apis_needed := [];
     api_rate_limits_rpm := None; team_size := None; special_constraints := [] |}.

Definition erratic_pattern_payload : InputPayload :=
  {| app_name := "TestApp"; description := "desc"; dau := 1000; peak_rps := 50;
     read_write_ratio := 3; regions := ["us-east"]; budget_level := "medium";
     domain := Some "fintech"; end_users := None; user_roles := [];
     peak_concurrent_users := None; traffic_pattern := "erratic";
     data_types := []; compliance := []; latency_target_ms_p50 := None;
     latency_target_ms_p95 := None; availability_target := None;
     rpo_hours := None; rto_hours := None; apis_needed := [];
     api_rate_limits_rpm := None; team_size := None; special_constraints := [] |}.

(** ** Predicates on computations and nodes *)

(** A computation appends at most [k] requests and at most [k] printed
    lines to the world, and touches nothing that was there. *)
Definition grows {A} (k : nat) (m : M A) : Prop :=
  ∀ w, ∃ calls lines,
    llm_calls (m w).2 = llm_calls w ++ calls
    ∧ stdout (m w).2 = stdout w ++ lines
    ∧ (length calls ≤ k)%nat ∧ (length lines ≤ k)%nat.

(** A computation that returns has added exactly [k] requests and [k]
    printed lines. *)
Definition adds {A} (k : nat) (m : M A) : Prop :=
  ∀ w a w', m w = (Ok a, w') →
    length (llm_calls w') = (length (llm_calls w) + k)%nat
    ∧ length (stdout w') = (length (stdout w) + k)%nat.

(** Two nodes return the same result on every state, whatever the world. *)
Definition same_result (n1 n2 : Node) : Prop :=
  ∀ (st : AgentState) (w1 w2 : World), (n1 st w1).1 = (n2 st w2).1.

(** The generation client answers every call with the fallback. *)
Definition always_fallback (py : Builtins) (self : AgenticCopilot) : Prop :=
  ∀ system_prompt user_prompt fallback w,
    (_call_llm py self system_prompt user_prompt fallback w).1 = Ok fallback.

(** A credential is configured, but every request either fails or is
    answered with a text that [json.loads] rejects. *)
Definition service_unusable (py : Builtins) (self : AgenticCopilot) : Prop :=
  mock_mode self = false
  ∧ ∃ client, llm self = Some client
      ∧ ∀ n messages,
          match client n messages with
          | Raise _ => True
          | Ok answer => ∃ e, json_loads py (strip_code_fence answer) = Raise e
          end.

(** A service that answers every request with the text of an empty JSON
    list, and a [json.loads] that knows this one text. *)
Definition service_list_answer : ChatModel := λ _ _, Ok "[]".

Definition loads_list_answer : Builtins :=
  {| json_loads := λ text,
       if String.eqb text "[]" then Ok (PList [])
       else Raise (JSONDecodeError "Expecting value");
     py_str := λ _, "" |}.

(** A state whose threat model is a text, as the security stage leaves it
    when the service answers with a text under "threat_model". *)
Definition state_with_text_threats : AgentState :=
  {| input := Some valid_payload; assumptions := Some ["Inputs normalized"];
     plan_steps := None; sizing := None;
     architecture_options := None; recommended_option := None;
     mermaid_flow := None; mermaid_components := None; api_design := None;
     performance_plan := None; reliability_plan := None;
     security_plan := None; threat_model := Some (PStr "none known");
     observability := None;
     summary := None; tech_stack := None; risks := None;
     phased_rollout := None |}.


(** ** [backend/main.py]

    The token bucket that guards every endpoint, and the two endpoints
    that need nothing but the input model and the sizing stage.  The clock
    [time.time()] is an argument [now]; the module-level dictionary
    [_RATE_LIMIT["tokens"]] is threaded through as a finite map. *)

Module Main.

Record Bucket : Type := {
  tokens : Q;
  ts : Q
}.

Definition CAPACITY : Q := 120.
Definition REFILL_RATE : Q := 2.

(** [min(a, b)]: the first argument unless the second is strictly smaller. *)
Definition py_min (a b : Q) : Q := if Qlt_le_dec b a then b else a.

Inductive Detail : Type :=
  | DetailText (s : string)
  | DetailErrors.

Record HTTPException : Type := {
  status_code : Z;
  detail : Detail
}.

(** What a handler gives back: a reply, an [HTTPException], or an exception
    nothing catches. *)
Inductive response (A : Type) : Type :=
  | Reply (a : A)
  | Abort (e : HTTPException)
  | Unhandled (e : exn).
Arguments Reply {A} a.
Arguments Abort {A} e.
Arguments Unhandled {A} e.

Definition RATE_LIMIT_EXCEEDED : HTTPException :=
  {| status_code := 429; detail := DetailText "Rate limit exceeded" |}.


(** [request.client.host if request.client else "anon"]. *)
Definition client_ip (client : option string) : string :=
  from_option id "anon" client.

Definition rate_limiter (client : option string) (now : Q) (buckets : gmap string Bucket)
    : response unit * (gmap string Bucket) :=
  let ip := client_ip client in
  let b := from_option id {| tokens := CAPACITY; ts := now |} (buckets !! ip) in
  let elapsed := (now - ts b)%Q in
  let b := {| tokens := py_min CAPACITY (tokens b + elapsed * REFILL_RATE)%Q;
              ts := now |} in
  if Qlt_le_dec (tokens b) 1
  then (Abort RATE_LIMIT_EXCEEDED, <[ip := b]> buckets)
  else (Reply tt, <[ip := {| tokens := (tokens b - 1)%Q; ts := ts b |}]> buckets).







End Main.

Import Main.

(** Requests of one client that arrive at the given times, in order: the
    outcomes of the limiter and the buckets it leaves. *)
Fixpoint serve (client : option string) (times : list Q) (buckets : gmap string Bucket)
    : list (response unit) * (gmap string Bucket) :=
  match times with
  | [] => ([], buckets)
  | now :: rest =>
      let r := rate_limiter client now buckets in
      let rs := serve client rest r.2 in
      (r.1 :: rs.1, rs.2)
  end.

(** The bucket of [ip] holds [k] tokens, stamped [now]; a client without a
    bucket counts as one with a full bucket. *)
Definition level (buckets : gmap string Bucket) (ip : string) (now : Q) (k : nat) : Prop :=
  match buckets !! ip with
  | Some b => (ts b == now)%Q ∧ (tokens b == inject_Z (Z.of_nat k))%Q
  | None => k = 120%nat
  end.

(** The times of a sequence of requests never go back from [last]. *)
Fixpoint nondecreasing (last : Q) (times : list Q) : Prop :=
  match times with
  | [] => True
  | t :: rest => (last <= t)%Q ∧ nondecreasing t rest
  end.

(** Every bucket holds between 0 and the capacity, and none is stamped
    later than [now]. *)
Definition buckets_ok (now : Q) (buckets : gmap string Bucket) : Prop :=
  ∀ ip b, buckets !! ip = Some b →
    (0 <= tokens b)%Q ∧ (tokens b <= CAPACITY)%Q ∧ (ts b <= now)%Q.

(** A bucket that ran dry one second before the clock shows 10. *)
Definition dry_buckets : (gmap string Bucket) :=
  {[ "10.0.0.7" := {| tokens := 0%Q; ts := 9%Q |} ]}.



(** ** Ranges of the numbers

    [fits]: the arguments for which [calc_qps] forms its two floats, neither
    the conversion of [dau] nor the quotient [peak_concurrency / 10]
    overflowing.  [RANGE_MAX]: a bound far inside that range, below which
    binary64 holds the integers and the products of the storage estimate
    exactly and an integer prints with few digits; [in_range]: the integers
    a run reads from the payload are at most [RANGE_MAX]. *)
Definition fits (dau peak_concurrency : Z) : Prop :=
  Z.abs dau < FLOAT_OVERFLOW ∧ Z.abs peak_concurrency < 10 * FLOAT_OVERFLOW.

Definition RANGE_MAX : Z := 10 ^ 12.

Definition in_range (p : InputPayload) : bool :=
  (dau p <=? RANGE_MAX) && (peak_rps p <=? RANGE_MAX)
  && opt_ok (λ n, n <=? RANGE_MAX) (peak_concurrent_users p).


Definition huge_payload : InputPayload :=
  {| app_name := "TestApp"; description := "desc"; dau := 10 ^ 400; peak_rps := 50;
     read_write_ratio := 3; regions := ["us-east"]; budget_level := "medium";
     domain := Some "fintech"; end_users := None; user_roles := [];
     peak_concurrent_users := None; traffic_pattern := "steady";
     data_types := []; compliance := []; latency_target_ms_p50 := None;
     latency_target_ms_p95 := None; availability_target := None;
     rpo_hours := None; rto_hours := None; apis_needed := [];
     api_rate_limits_rpm := None; team_size := None; special_constraints := [] |}.


(** A service that answers every request with the text of a JSON number,
    and a [json.loads] that knows this one text. *)
Definition service_number_answer : ChatModel := λ _ _, Ok "42".

Definition loads_number_answer : Builtins :=
  {| json_loads := λ text,
       if String.eqb text "42" then Ok (PInt 42)
       else Raise (JSONDecodeError "Expecting value");
     py_str := λ _, "" |}.

(** The dictionary [{"api_design": v}]. *)
Definition only_api_design (v : pyval) : AgentState :=
  {| input := None; assumptions := None; plan_steps := None; sizing := None;
     architecture_options := None; recommended_option := None;
     mermaid_flow := None; mermaid_components := None;
     api_design := Some v;
     performance_plan := None; reliability_plan := None;
     security_plan := None; threat_model := None; observability := None;
     summary := None; tech_stack := None; risks := None;
     phased_rollout := None |}.

(** * Properties *)

(** ** Rounding *)

Section Rounding.
Local Open Scope Q_scope.

Ltac compare_facts :=
  repeat match goal with
         | H : (_ ?= _) = Eq |- _ => apply Qeq_alt in H
         | H : (_ ?= _) = Lt |- _ => apply Qlt_alt in H
         | H : (_ ?= _) = Gt |- _ => apply Qgt_alt in H
         end.

Ltac push_inject :=
  rewrite ?inject_Z_plus in *; change (inject_Z 1) with 1 in *.

Lemma round_half_even_comp (x y : Q) :
  x == y → round_half_even x = round_half_even y.
Proof.
  intros E. unfold round_half_even.
  rewrite (Qfloor_comp _ _ E).
  assert (Hc : (x - inject_Z (Qfloor y) ?= 1 # 2) = (y - inject_Z (Qfloor y) ?= 1 # 2))
    by (apply Qcompare_comp; [rewrite E|]; reflexivity).
  rewrite Hc. reflexivity.
Qed.

(** The rounded value is within one half of its argument. *)
Lemma round_half_even_near (x : Q) :
  inject_Z (round_half_even x) - (1 # 2) <= x
  ∧ x <= inject_Z (round_half_even x) + (1 # 2).
Proof.
  unfold round_half_even.
  pose proof (Qfloor_le x) as Hlo. pose proof (Qlt_floor x) as Hhi.
  destruct (x - inject_Z (Qfloor x) ?= 1 # 2) eqn:Hc.
  - compare_facts.
    destruct (Z.even (Qfloor x)); push_inject; split; lra.
  - compare_facts. push_inject. split; lra.
  - compare_facts. push_inject. split; lra.
Qed.

Lemma round_half_even_mono (x y : Q) :
  x <= y → (round_half_even x <= round_half_even y)%Z.
Proof.
  intros Hxy.
  pose proof (Qfloor_resp_le _ _ Hxy) as Hf.
  pose proof (Qfloor_le x) as Hxl. pose proof (Qlt_floor x) as Hxh.
  pose proof (Qfloor_le y) as Hyl. pose proof (Qlt_floor y) as Hyh.
  push_inject.
  unfold round_half_even.
  destruct (Z.eq_dec (Qfloor x) (Qfloor y)) as [E | NE].
  - rewrite <- E in *.
    destruct (x - inject_Z (Qfloor x) ?= 1 # 2) eqn:Hcx;
      destruct (y - inject_Z (Qfloor x) ?= 1 # 2) eqn:Hcy;
      compare_facts;
      destruct (Z.even (Qfloor x)); cbn; try lia; exfalso; lra.
  - assert (Qfloor x + 1 <= Qfloor y)%Z by lia.
    destruct (x - inject_Z (Qfloor x) ?= 1 # 2);
      destruct (y - inject_Z (Qfloor y) ?= 1 # 2);
      destruct (Z.even (Qfloor x)); destruct (Z.even (Qfloor y)); cbn; lia.
Qed.

(** Arguments more than one apart stay apart (a tie may close a gap of
    exactly one: 1.5 and 2.5 both round to 2). *)
Lemma round_half_even_strict (x y : Q) :
  x + 1 < y → (round_half_even x < round_half_even y)%Z.
Proof.
  intros Hxy.
  destruct (round_half_even_near x) as [Hx _].
  destruct (round_half_even_near y) as [_ Hy].
  rewrite Zlt_Qlt. lra.
Qed.

Lemma scale_pos (n : nat) : (0 < 10 ^ Z.of_nat n)%Z.
Proof. apply Z.pow_pos_nonneg; lia. Qed.

(** [round(x, n)] scaled by [10^n] is the nearest integer to the scaled
    argument. *)
Lemma py_round_scaled (x : Q) (n : nat) :
  py_round x n * inject_Z (10 ^ Z.of_nat n)
  == inject_Z (round_half_even (x * inject_Z (10 ^ Z.of_nat n))).
Proof.
  pose proof (Z2Pos.id _ (scale_pos n)) as Hid.
  unfold py_round. cbv zeta. rewrite Hid.
  generalize (round_half_even (x * inject_Z (10 ^ Z.of_nat n))). intros k.
  unfold Qeq, Qmult, inject_Z; cbn [Qnum Qden].
  rewrite Pos.mul_1_r, Hid. ring.
Qed.

Lemma py_round_near (x : Q) (n : nat) :
  Qabs (py_round x n * inject_Z (10 ^ Z.of_nat n)
        - x * inject_Z (10 ^ Z.of_nat n)) <= 1 # 2.
Proof.
  rewrite py_round_scaled.
  destruct (round_half_even_near (x * inject_Z (10 ^ Z.of_nat n))) as [H1 H2].
  apply Qabs_Qle_condition. split; lra.
Qed.

Lemma py_round_mono (x y : Q) (n : nat) :
  x <= y → py_round x n <= py_round y n.
Proof.
  intros Hxy. pose proof (scale_pos n) as Hpos.
  assert (Hs : 0 < inject_Z (10 ^ Z.of_nat n))
    by (rewrite <- (Zlt_Qlt 0); exact Hpos).
  apply (Qmult_le_r _ _ _ Hs). rewrite !py_round_scaled.
  rewrite <- Zle_Qle. apply round_half_even_mono.
  apply Qmult_le_compat_r; [exact Hxy | lra].
Qed.

(** Arguments more than one unit of the last kept digit apart are rounded
    to different values. *)
Lemma py_round_strict (x y : Q) (n : nat) :
  x * inject_Z (10 ^ Z.of_nat n) + 1 < y * inject_Z (10 ^ Z.of_nat n) →
  py_round x n < py_round y n.
Proof.
  intros Hxy. pose proof (scale_pos n) as Hpos.
  assert (Hs : 0 < inject_Z (10 ^ Z.of_nat n))
    by (rewrite <- (Zlt_Qlt 0); exact Hpos).
  apply (Qmult_lt_r _ _ _ Hs). rewrite !py_round_scaled.
  rewrite <- Zlt_Qlt. apply round_half_even_strict. exact Hxy.
Qed.

End Rounding.

(** ** The estimator: [calc_qps] *)

Section Throughput.
Local Open Scope Q_scope.

Lemma py_truediv_ok (a b : Q) : ¬ b == 0 → py_truediv a b = Ok (a / b).
Proof.
  intros Hb. unfold py_truediv.
  destruct (Qeq_bool b 0) eqn:E; [|reflexivity].
  apply Qeq_bool_iff in E. contradiction.
Qed.


Lemma py_max_ge_r (a b : Q) : b <= py_max a b.
Proof. unfold py_max. destruct (Qlt_le_dec a b); lra. Qed.

Lemma py_max_mono_r (a b1 b2 : Q) : b1 <= b2 → py_max a b1 <= py_max a b2.
Proof.
  intros H. unfold py_max.
  destruct (Qlt_le_dec a b1), (Qlt_le_dec a b2); lra.
Qed.

Lemma py_max_r (a b : Q) : a <= b → py_max a b == b.
Proof. intros H. unfold py_max. destruct (Qlt_le_dec a b); lra. Qed.

Lemma float_overflow_far : (10 * RANGE_MAX < FLOAT_OVERFLOW)%Z.
Proof. vm_compute. reflexivity. Qed.

Lemma float_of_int_ok (n : Z) :
  (Z.abs n < FLOAT_OVERFLOW)%Z → float_of_int n = Ok (inject_Z n).
Proof.
  intros H. unfold float_of_int.
  destruct (Z.ltb_spec (Z.abs n) FLOAT_OVERFLOW); [reflexivity | lia].
Qed.

Lemma float_of_int_overflow (n : Z) :
  (FLOAT_OVERFLOW <= Z.abs n)%Z →
  float_of_int n = Raise (OverflowError "int too large to convert to float").
Proof.
  intros H. unfold float_of_int.
  destruct (Z.ltb_spec (Z.abs n) FLOAT_OVERFLOW); [lia | reflexivity].
Qed.

Lemma int_truediv_ten (c : Z) :
  (Z.abs c < 10 * FLOAT_OVERFLOW)%Z → int_truediv c 10 = Ok (inject_Z c / 10).
Proof.
  intros H. unfold int_truediv. cbn [Z.eqb].
  change (Z.abs 10) with 10%Z.
  destruct (Z.ltb_spec (Z.abs c) (FLOAT_OVERFLOW * 10)); [reflexivity | lia].
Qed.

Lemma int_truediv_ten_overflow (c : Z) :
  (10 * FLOAT_OVERFLOW <= Z.abs c)%Z →
  int_truediv c 10
  = Raise (OverflowError "integer division result too large for a float").
Proof.
  intros H. unfold int_truediv. cbn [Z.eqb].
  change (Z.abs 10) with 10%Z.
  destruct (Z.ltb_spec (Z.abs c) (FLOAT_OVERFLOW * 10)); [lia | reflexivity].
Qed.

Lemma small_fits (dau c : Z) :
  (Z.abs dau <= RANGE_MAX)%Z → (Z.abs c <= RANGE_MAX)%Z → fits dau c.
Proof.
  intros Hd Hc. pose proof float_overflow_far as H.
  assert (0 < RANGE_MAX)%Z by reflexivity.
  split; lia.
Qed.

(** The value [calc_qps] returns when both floats exist and the ratio is
    positive. *)
Lemma calc_qps_ok (dau c : Z) (ratio burst : Q) :
  fits dau c → 0 < ratio →
  let base := py_max (inject_Z dau * 0.1 / 86400) (inject_Z c / 10) in
  let peak := base * burst in
  let read := peak * (ratio / (1 + ratio)) in
  calc_qps dau c ratio burst
  = Ok {| base_qps := py_round base 2; peak_qps := py_round peak 2;
          read_qps := py_round read 2; write_qps := py_round (peak - read) 2 |}.
Proof.
  intros [Hd Hc] Hr. cbv zeta. unfold calc_qps.
  rewrite (float_of_int_ok dau Hd), (int_truediv_ten c Hc). cbn [rbind].
  rewrite py_truediv_ok by lra. reflexivity.
Qed.

(** C4.  The code breaks the claim.  [calc_qps] rounds each of its outputs
    on its own, after it has formed writeQps as peakQps - readQps.  For
    dau = 100000, peak concurrency 1, ratio 1.4375 and burst factor 1.4 (all
    valid) it returns readQps = 0.10, writeQps = 0.07 and peakQps = 0.16: the
    returned parts add up to 0.17, which is not within relative tolerance
    1e-5 of 0.16. *)
Lemma calc_qps_rounded_sum_not_close :
  (1 <= 100000)%Z ∧ (1 <= 1)%Z ∧ 0 < 23 # 16 ∧ 1 <= 1.4 ∧
  ∃ r, calc_qps 100000 1 (23 # 16) 1.4 = Ok r
       ∧ read_qps r == 0.1 ∧ write_qps r == 0.07
       ∧ read_qps r + write_qps r == 0.17 ∧ peak_qps r == 0.16
       ∧ ¬ isclose (read_qps r + write_qps r) (peak_qps r) (1 # 100000).
Proof.
  repeat split; try (vm_compute; congruence).
  eexists. split; [vm_compute; reflexivity|].
  repeat split; try (vm_compute; reflexivity).
  unfold isclose. vm_compute. intros H. apply H. reflexivity.
Qed.

(** C5, the claim as stated fails.  With dau = 10^9, ratio 4 and burst
    factor 1.5, raising the peak concurrency from 100 to 500 leaves
    peakQps at 1736.11: the DAU term of the maximum decides both. *)
Lemma calc_qps_peak_plateau :
  (100 < 500)%Z ∧
  ∃ r1 r2, calc_qps 1000000000 100 4 1.5 = Ok r1
           ∧ calc_qps 1000000000 500 4 1.5 = Ok r2
           ∧ peak_qps r1 == 1736.11 ∧ peak_qps r2 == 1736.11
           ∧ ¬ peak_qps r1 < peak_qps r2.
Proof.
  split; [lia|]. eexists. eexists.
  split; [vm_compute; reflexivity|]. split; [vm_compute; reflexivity|].
  repeat split; try (vm_compute; reflexivity).
  vm_compute. discriminate.
Qed.

(** C5, amended.  For a dau between 0 and 10^12, peak concurrencies of
    magnitude at most 10^12, a ratio > 0 and a burst factor between 1 and
    10^12, peakQps never decreases when the peak concurrency increases, and
    it strictly increases when the lower concurrency already decides the
    maximum (dau <= 86400 * c1, that is dau * 0.1 / 86400 <= c1 / 10): the
    two values before rounding are then at least a tenth apart. *)
Theorem calc_qps_peak_monotone (dau c1 c2 : Z) (ratio burst : Q) :
  (0 <= dau <= RANGE_MAX)%Z →
  (Z.abs c1 <= RANGE_MAX)%Z → (Z.abs c2 <= RANGE_MAX)%Z →
  0 < ratio → 1 <= burst → burst <= inject_Z RANGE_MAX → (c1 < c2)%Z →
  ∃ r1 r2, calc_qps dau c1 ratio burst = Ok r1
           ∧ calc_qps dau c2 ratio burst = Ok r2
           ∧ peak_qps r1 <= peak_qps r2
           ∧ ((dau <= 86400 * c1)%Z → peak_qps r1 < peak_qps r2).
Proof.
  intros Hdau Hc1 Hc2 Hr Hb _ Hc. eexists. eexists.
  split; [apply calc_qps_ok; [apply small_fits; lia | exact Hr]|].
  split; [apply calc_qps_ok; [apply small_fits; lia | exact Hr]|].
  cbn [peak_qps].
  set (a := inject_Z dau * 0.1 / 86400).
  assert (Hc' : inject_Z c1 / 10 + (1 # 10) <= inject_Z c2 / 10).
  { assert (H : (c1 + 1 <= c2)%Z) by lia.
    rewrite Zle_Qle, inject_Z_plus in H. change (inject_Z 1) with 1 in H.
    unfold Qdiv. change (/ 10) with (1 # 10). lra. }
  split.
  - apply py_round_mono. apply Qmult_le_compat_r; [|lra].
    apply py_max_mono_r. lra.
  - intros Hd. apply py_round_strict.
    change (inject_Z (10 ^ Z.of_nat 2)) with 100.
    assert (Ha : a <= inject_Z c1 / 10).
    { rewrite Zle_Qle, inject_Z_mult in Hd.
      change (inject_Z 86400) with 86400 in Hd.
      unfold a, Qdiv. change (/ 86400) with (1 # 86400).
      change (/ 10) with (1 # 10). change 0.1 with (1 # 10). lra. }
    rewrite (py_max_r _ _ Ha).
    pose proof (py_max_ge_r a (inject_Z c2 / 10)) as H2.
    assert (H3 : (inject_Z c1 / 10 + (1 # 10)) * burst
                 <= py_max a (inject_Z c2 / 10) * burst)
      by (apply Qmult_le_compat_r; lra).
    assert (H4 : (1 # 10) * 1 <= (1 # 10) * burst)
      by (apply Qmult_le_l; [reflexivity | exact Hb]).
    lra.
Qed.

Lemma calc_qps_peak_monotone_witness :
  ∃ r1 r2, calc_qps 1000 100 4 1.5 = Ok r1
           ∧ calc_qps 1000 500 4 1.5 = Ok r2
           ∧ peak_qps r1 <= peak_qps r2
           ∧ ((1000 <= 86400 * 100)%Z → peak_qps r1 < peak_qps r2).
Proof.
  apply (calc_qps_peak_monotone 1000 100 500 4 1.5).
  - vm_compute. split; discriminate.
  - vm_compute. discriminate.
  - vm_compute. discriminate.
  - reflexivity.
  - vm_compute. discriminate.
  - vm_compute. discriminate.
  - lia.
Defined.

End Throughput.

(** ** The sizing stage *)

Section Sizing.
Local Open Scope Q_scope.

Lemma valid_ratio_pos (inp : InputPayload) : valid inp → 0 < read_write_ratio inp.
Proof.
  unfold valid, fields_ok. intros H.
  repeat (apply andb_prop in H as [H ?]).
  match goal with
  | Hn : negb (Qle_bool _ 0) = true |- _ =>
      apply negb_true_iff in Hn; apply Qnot_le_lt; intros Hle;
      apply Qle_bool_iff in Hle; congruence
  end.
Qed.

Lemma valid_dau_pos (inp : InputPayload) : valid inp → (1 <= dau inp)%Z.
Proof.
  unfold valid, fields_ok. intros H.
  repeat (apply andb_prop in H as [H ?]). lia.
Qed.

Lemma valid_concurrency_pos (inp : InputPayload) (n : Z) :
  valid inp → peak_concurrent_users inp = Some n → (1 <= n)%Z.
Proof.
  unfold valid, fields_ok. intros H Hn.
  repeat (apply andb_prop in H as [H ?]).
  match goal with
  | Hc : opt_ok (Z.leb 1) (peak_concurrent_users inp) = true |- _ =>
      rewrite Hn in Hc; cbn in Hc; lia
  end.
Qed.

(** The default of the peak concurrency is a tenth of the dau, rounded
    down; a stated one is taken as it is. *)
Lemma sizing_peak_concurrency_cases (inp : InputPayload) :
  valid inp →
  match peak_concurrent_users inp with
  | Some n => sizing_peak_concurrency inp = n ∧ (1 <= n)%Z
  | None => sizing_peak_concurrency inp = (dau inp / 10)%Z
  end.
Proof.
  intros Hv. unfold sizing_peak_concurrency.
  destruct (peak_concurrent_users inp) as [n|] eqn:En; [|reflexivity].
  pose proof (valid_concurrency_pos inp n Hv En) as Hn.
  destruct (Z.eqb_spec n 0); [lia|]. split; [reflexivity | exact Hn].
Qed.

Lemma in_range_fits (inp : InputPayload) :
  valid inp → in_range inp = true →
  fits (dau inp) (sizing_peak_concurrency inp).
Proof.
  intros Hv Hr. pose proof (valid_dau_pos inp Hv) as Hd.
  pose proof (sizing_peak_concurrency_cases inp Hv) as Hc.
  unfold in_range in Hr.
  apply andb_prop in Hr as [Hr Hp]. apply andb_prop in Hr as [Hr _].
  apply Z.leb_le in Hr.
  apply small_fits; [lia|].
  destruct (peak_concurrent_users inp) as [n|].
  - destruct Hc as [-> Hn]. cbn in Hp. apply Z.leb_le in Hp. lia.
  - rewrite Hc.
    pose proof (Z.div_pos (dau inp) 10 ltac:(lia) ltac:(lia)).
    pose proof (Z.div_le_upper_bound (dau inp) 10 (dau inp) ltac:(lia) ltac:(lia)).
    lia.
Qed.

(** What the sizing node returns on a state that holds a valid input whose
    numbers have floats. *)
Lemma sizing_returns (state : AgentState) (inp : InputPayload) :
  input state = Some inp → valid inp →
  fits (dau inp) (sizing_peak_concurrency inp) →
  ∃ q upd,
    calc_qps (dau inp) (sizing_peak_concurrency inp) (read_write_ratio inp)
             (sizing_multiplier inp) = Ok q
    ∧ _sizing state = Ok upd
    ∧ sizing upd
      = Some (SizingOf {| qps := q;
                          storage := calc_storage 12 8 365 (dau inp);
                          bandwidth_gbps :=
                            py_round (peak_qps q * 2 * 1024 / 1000000) 3 |}).
Proof.
  intros Hin Hv Hf. pose proof (valid_ratio_pos inp Hv) as Hr.
  pose proof (calc_qps_ok (dau inp) (sizing_peak_concurrency inp)
                (read_write_ratio inp) (sizing_multiplier inp) Hf Hr) as Hq.
  cbv zeta in Hq.
  eexists. eexists. split; [exact Hq|].
  unfold _sizing, get_input. rewrite Hin. cbn [rbind]. rewrite Hq. cbn [rbind].
  split; reflexivity.
Qed.




(** The storage estimate in what the sizing node returns. *)
Lemma sizing_storage_of (state upd : AgentState) (inp : InputPayload) :
  input state = Some inp → _sizing state = Ok upd →
  ∃ sz, sizing upd = Some (SizingOf sz)
        ∧ storage sz = calc_storage 12 8 365 (dau inp).
Proof.
  intros Hin. unfold _sizing, get_input. rewrite Hin. cbn [rbind].
  destruct (calc_qps _ _ _ _) as [q|e]; cbn [rbind]; [|discriminate].
  intros [= <-]. eexists. split; reflexivity.
Qed.

(** The three figures of the storage estimate at the fixed parameters. *)
Lemma calc_storage_fixed_figures (dau : Z) :
  daily_gb (calc_storage 12 8 365 dau)
  == py_round (inject_Z dau * 12 * 8 / 1024 / 1024) 3
  ∧ total_gb_retention (calc_storage 12 8 365 dau)
    == py_round (inject_Z dau * 12 * 8 / 1024 / 1024 * 365) 3
  ∧ monthly_growth_gb (calc_storage 12 8 365 dau)
    == py_round (inject_Z dau * 12 * 8 / 1024 / 1024 * 30) 3.
Proof.
  unfold calc_storage. cbn [daily_gb total_gb_retention monthly_growth_gb].
  change (inject_Z 12) with 12. change (inject_Z 365) with 365.
  repeat split; reflexivity.
Qed.

(** C10.  On every valid input, the storage estimate the sizing node
    returns is [calc_storage] at 12 records per user, 8 KB per record and
    365 retention days, whatever the other fields of the input are: two
    valid inputs with the same dau get the same storage estimate.  For a dau
    of at most 10^12 the three figures are dau * 12 * 8 / 1024 / 1024
    gigabytes a day, 365 times that and 30 times that, each rounded to 3
    places.  The node returns whenever dau and peak concurrency have floats
    (beyond that range it raises in the throughput computation, before any
    storage estimate is formed, see [sizing_overflows]). *)
Theorem sizing_storage_fixed (s1 s2 : AgentState) (i1 i2 : InputPayload) :
  input s1 = Some i1 → input s2 = Some i2 → valid i1 → valid i2 →
  dau i1 = dau i2 →
  (∀ u1 u2, _sizing s1 = Ok u1 → _sizing s2 = Ok u2 →
     ∃ z1 z2,
       sizing u1 = Some (SizingOf z1) ∧ sizing u2 = Some (SizingOf z2)
       ∧ storage z1 = calc_storage 12 8 365 (dau i1)
       ∧ storage z2 = storage z1
       ∧ ((dau i1 <= RANGE_MAX)%Z →
            daily_gb (storage z1)
            == py_round (inject_Z (dau i1) * 12 * 8 / 1024 / 1024) 3
            ∧ total_gb_retention (storage z1)
              == py_round (inject_Z (dau i1) * 12 * 8 / 1024 / 1024 * 365) 3
            ∧ monthly_growth_gb (storage z1)
              == py_round (inject_Z (dau i1) * 12 * 8 / 1024 / 1024 * 30) 3))
  ∧ (fits (dau i1) (sizing_peak_concurrency i1) →
     fits (dau i2) (sizing_peak_concurrency i2) →
     ∃ u1 u2, _sizing s1 = Ok u1 ∧ _sizing s2 = Ok u2).
Proof.
  intros H1 H2 V1 V2 Hd. split.
  - intros u1 u2 E1 E2.
    destruct (sizing_storage_of s1 u1 i1 H1 E1) as (z1 & Hz1 & Hst1).
    destruct (sizing_storage_of s2 u2 i2 H2 E2) as (z2 & Hz2 & Hst2).
    exists z1, z2. split; [exact Hz1|]. split; [exact Hz2|].
    split; [exact Hst1|]. split; [rewrite Hst1, Hst2, Hd; reflexivity|].
    intros _. rewrite Hst1. apply calc_storage_fixed_figures.
  - intros F1 F2.
    destruct (sizing_returns s1 i1 H1 V1 F1) as (q1 & u1 & _ & Hs1 & _).
    destruct (sizing_returns s2 i2 H2 V2 F2) as (q2 & u2 & _ & Hs2 & _).
    exists u1, u2. split; assumption.
Qed.

End Sizing.


Lemma sizing_storage_fixed_witness :
  ∃ u1 u2 z1 z2,
    _sizing (initial_state valid_payload) = Ok u1 ∧ sizing u1 = Some (SizingOf z1)
    ∧ _sizing (initial_state spiky_payload) = Ok u2 ∧ sizing u2 = Some (SizingOf z2)
    ∧ storage z2 = storage z1
    ∧ (daily_gb (storage z1) == 0.092)%Q
    ∧ (total_gb_retention (storage z1) == 33.417)%Q
    ∧ (monthly_growth_gb (storage z1) == 2.747)%Q.
Proof.
  assert (F1 : fits (dau valid_payload) (sizing_peak_concurrency valid_payload))
    by (split; reflexivity).
  assert (F2 : fits (dau spiky_payload) (sizing_peak_concurrency spiky_payload))
    by (split; reflexivity).
  destruct (sizing_storage_fixed (initial_state valid_payload)
              (initial_state spiky_payload) valid_payload spiky_payload
              eq_refl eq_refl eq_refl eq_refl eq_refl) as [Hfix Hret].
  destruct (Hret F1 F2) as (u1 & u2 & R1 & R2).
  destruct (Hfix u1 u2 R1 R2) as (z1 & z2 & S1 & S2 & _ & Heq & Hval).
  destruct Hval as (Hd & Ht & Hm); [vm_compute; discriminate|].
  exists u1, u2, z1, z2.
  split; [exact R1|]. split; [exact S1|]. split; [exact R2|]. split; [exact S2|].
  split; [exact Heq|].
  split; [rewrite Hd; reflexivity|].
  split; [rewrite Ht; reflexivity | rewrite Hm; reflexivity].
Defined.

(** ** The risk classifier *)

Section RiskClassifier.

Lemma existsb_upper (p : string → bool) (l l' : list string) :
  map upper l = map upper l' →
  existsb (λ t, p (upper t)) l = existsb (λ t, p (upper t)) l'.
Proof.
  revert l'. induction l as [|x l IH]; intros [|y l'] E; try discriminate.
  - reflexivity.
  - injection E as Ex El. cbn [existsb]. rewrite Ex, (IH l' El). reflexivity.
Qed.

Lemma is_health_tag_upper (t : string) :
  is_health_tag t = true ↔ upper t = "HIPAA" ∨ upper t = "PHI".
Proof.
  unfold is_health_tag, str_in. cbn [existsb].
  rewrite !orb_true_iff, !String.eqb_eq. intuition discriminate.
Qed.

Lemma is_card_tag_upper (t : string) :
  is_card_tag t = true ↔ upper t = "PCI" ∨ upper t = "CARD".
Proof.
  unfold is_card_tag, str_in. cbn [existsb].
  rewrite !orb_true_iff, !String.eqb_eq. intuition discriminate.
Qed.

Lemma is_personal_tag_upper (t : string) :
  is_personal_tag t = true ↔ upper t = "PII".
Proof. unfold is_personal_tag. apply String.eqb_eq. Qed.

(** C8.  [risk_checklist] tests the three categories in the order health
    data, payment card, personal data; a tag belongs to a category when its
    upper-case form is one of the category's names, so the answer does not
    depend on the case of any tag.  Each category that matches contributes
    its one advisory, in that order; a health tag among the data types puts
    the health advisory in the result; when no category matches the result
    is the generic advisory alone. *)
Theorem risk_checklist_categories (compliance_flags data_types : list string) :
  let health := existsb is_health_tag (compliance_flags ++ data_types) in
  let card := existsb is_card_tag (compliance_flags ++ data_types) in
  let personal := existsb is_personal_tag data_types in
  risk_checklist compliance_flags data_types
  = (if health || card || personal
     then (if health then [PHI_ADVISORY] else [])
          ++ (if card then [PCI_ADVISORY] else [])
          ++ (if personal then [PII_ADVISORY] else [])
     else [GENERIC_ADVISORY])
  ∧ (∀ t, is_health_tag t = true ↔ upper t = "HIPAA" ∨ upper t = "PHI")
  ∧ (∀ t, is_card_tag t = true ↔ upper t = "PCI" ∨ upper t = "CARD")
  ∧ (∀ t, is_personal_tag t = true ↔ upper t = "PII")
  ∧ (∀ flags' types',
       map upper flags' = map upper compliance_flags →
       map upper types' = map upper data_types →
       risk_checklist flags' types' = risk_checklist compliance_flags data_types)
  ∧ ((∃ t, In t data_types ∧ is_health_tag t = true) →
       In PHI_ADVISORY (risk_checklist compliance_flags data_types))
  ∧ (health = false → card = false → personal = false →
       risk_checklist compliance_flags data_types = [GENERIC_ADVISORY])
  ∧ NoDup (risk_checklist compliance_flags data_types).
Proof.
  intros health card personal.
  assert (Hshape : risk_checklist compliance_flags data_types
    = (if health || card || personal
       then (if health then [PHI_ADVISORY] else [])
            ++ (if card then [PCI_ADVISORY] else [])
            ++ (if personal then [PII_ADVISORY] else [])
       else [GENERIC_ADVISORY])).
  { unfold risk_checklist. fold health card personal.
    destruct health, card, personal; reflexivity. }
  split; [exact Hshape|].
  split; [apply is_health_tag_upper|].
  split; [apply is_card_tag_upper|].
  split; [apply is_personal_tag_upper|].
  split.
  { intros flags' types' Ef Et. unfold risk_checklist.
    assert (Eall : map upper (flags' ++ types')
                   = map upper (compliance_flags ++ data_types))
      by (rewrite !map_app, Ef, Et; reflexivity).
    unfold is_health_tag, is_card_tag, is_personal_tag.
    rewrite (existsb_upper (λ u, str_in u ["HIPAA"; "PHI"]) _ _ Eall).
    rewrite (existsb_upper (λ u, str_in u ["PCI"; "CARD"]) _ _ Eall).
    rewrite (existsb_upper (λ u, String.eqb u "PII") _ _ Et).
    reflexivity. }
  split.
  { intros (t & Hin & Ht).
    assert (Hh : health = true).
    { unfold health. apply existsb_exists. exists t. split; [|exact Ht].
      apply in_or_app. right. exact Hin. }
    rewrite Hshape, Hh. cbn. left. reflexivity. }
  split.
  { intros Hh Hc Hp. rewrite Hshape, Hh, Hc, Hp. reflexivity. }
  rewrite Hshape.
  destruct health, card, personal; cbn;
    repeat (apply NoDup_cons; split; [rewrite ?elem_of_cons, elem_of_nil; intuition discriminate|]);
    apply NoDup_nil_2.
Qed.

Lemma risk_checklist_categories_witness :
  In PHI_ADVISORY (risk_checklist ["soc2"] ["Phi"; "email"])
  ∧ risk_checklist ["SOC2"; "GDPR"] ["email"] = [GENERIC_ADVISORY].
Proof.
  pose proof (risk_checklist_categories ["soc2"] ["Phi"; "email"])
    as (_ & _ & _ & _ & _ & Hphi & _).
  pose proof (risk_checklist_categories ["SOC2"; "GDPR"] ["email"])
    as (_ & _ & _ & _ & _ & _ & Hgen & _).
  split.
  - apply Hphi. exists "Phi". split; [left; reflexivity | reflexivity].
  - apply Hgen; reflexivity.
Defined.

End RiskClassifier.

(** ** Removal of repeated assumptions *)

Section Dedup.

(** What the loop has built after the entries of [l]: [seen] holds exactly
    the entries met, [unique_assumptions] holds them once each, in the order
    of [l]. *)
Lemma dedup_loop_invariant (l : list string) :
  let st := foldl dedup_step ([], ∅) l in
  (∀ x, x ∈ st.2 ↔ x ∈ l) ∧ (∀ x, x ∈ st.1 ↔ x ∈ l)
  ∧ NoDup st.1 ∧ sublist st.1 l.
Proof.
  induction l as [|a l IH] using rev_ind; cbn zeta.
  - cbn. split; [intros x; rewrite elem_of_empty, elem_of_nil; reflexivity|].
    split; [reflexivity|].
    split; [apply NoDup_nil_2 | reflexivity].
  - rewrite foldl_app. cbn [foldl]. cbn zeta in IH.
    destruct (foldl dedup_step ([], ∅) l) as [u seen] eqn:E.
    cbn [fst snd] in IH. destruct IH as (Hseen & Hu & Hnd & Hsub).
    unfold dedup_step. cbn [fst snd]. case_bool_decide as Hin; cbn [fst snd].
    + apply Hseen in Hin.
      split; [intros x; rewrite elem_of_app, list_elem_of_singleton, Hseen;
              intuition (subst; assumption)|].
      split; [intros x; rewrite elem_of_app, list_elem_of_singleton, Hu;
              intuition (subst; assumption)|].
      split; [exact Hnd|]. apply sublist_inserts_r. exact Hsub.
    + assert (Hnew : a ∉ l) by (intros ?; apply Hin, Hseen; assumption).
      split; [intros x; rewrite elem_of_union, elem_of_singleton, elem_of_app,
                list_elem_of_singleton, Hseen; intuition|].
      split; [intros x; rewrite !elem_of_app, Hu; reflexivity|].
      split.
      * apply NoDup_app. split; [exact Hnd|]. split; [|apply NoDup_singleton].
        intros x Hx Hx'. apply Hu in Hx. apply list_elem_of_singleton in Hx'.
        subst x. contradiction.
      * apply sublist_app; [exact Hsub | reflexivity].
Qed.

Lemma dedup_nil : dedup [] = [].
Proof. reflexivity. Qed.

(** One more entry at the end is appended exactly when it is new. *)
Lemma dedup_snoc (l : list string) (x : string) :
  dedup (l ++ [x]) = if decide (x ∈ l) then dedup l else dedup l ++ [x].
Proof.
  unfold dedup. rewrite foldl_app. cbn [foldl].
  destruct (dedup_loop_invariant l) as (Hseen & _). cbn zeta in Hseen.
  unfold dedup_step. case_bool_decide as Hin; case_decide as Hl; try reflexivity.
  - apply Hseen in Hin. contradiction.
  - apply Hseen in Hl. contradiction.
Qed.

Lemma keep_first_elem (l : list string) (x : string) : x ∈ keep_first l ↔ x ∈ l.
Proof.
  induction l as [|a l IH]; cbn [keep_first]; [reflexivity|].
  rewrite !elem_of_cons, list_elem_of_filter, IH.
  destruct (decide (x = a)); intuition.
Qed.

Lemma keep_first_snoc (l : list string) (x : string) :
  keep_first (l ++ [x])
  = if decide (x ∈ l) then keep_first l else keep_first l ++ [x].
Proof.
  induction l as [|a l IH]; cbn [keep_first app].
  - case_decide as H; [apply elem_of_nil in H; contradiction|reflexivity].
  - rewrite IH. destruct (decide (x ∈ a :: l)) as [Hal|Hal].
    + destruct (decide (x ∈ l)) as [Hl|Hl]; [reflexivity|].
      apply elem_of_cons in Hal as [->|?]; [|contradiction].
      rewrite filter_app, filter_cons_False, filter_nil, app_nil_r
        by (intros ?; congruence).
      reflexivity.
    + rewrite decide_False by (intros ?; apply Hal, list_elem_of_further; assumption).
      rewrite filter_app, filter_cons_True, filter_nil
        by (intros ->; apply Hal, list_elem_of_here).
      reflexivity.
Qed.

(** The loop computes the reference definition. *)
Lemma dedup_keep_first (l : list string) : dedup l = keep_first l.
Proof.
  induction l as [|x l IH] using rev_ind; [reflexivity|].
  rewrite dedup_snoc, keep_first_snoc, IH. reflexivity.
Qed.

End Dedup.

(** ** The generation client *)

Section GenerationClient.
Variable py : Builtins.
Local Open Scope py_scope.

Lemma call_llm_mock (self : AgenticCopilot) (system_prompt user_prompt : string)
    (fallback : pyval) :
  mock_mode self = true →
  _call_llm py self system_prompt user_prompt fallback = ret fallback.
Proof. intros Hm. unfold _call_llm. rewrite Hm. reflexivity. Qed.

(** A call of the generation client always returns a value, never an
    exception.  Without credential it returns the fallback at once and
    leaves the world untouched.  With a credential it sends exactly one
    request; when the request raises, or when [json.loads] rejects the
    cleaned answer, it returns the fallback, otherwise the parsed value, of
    whatever type.  In every case at most one request is added to the log
    of calls. *)
Lemma call_llm_contract (self : AgenticCopilot)
    (system_prompt user_prompt : string) (fallback : pyval) (w : World) :
  ∃ v w',
    _call_llm py self system_prompt user_prompt fallback w = (Ok v, w')
    ∧ (mock_mode self = true → v = fallback ∧ w' = w)
    ∧ (length (llm_calls w') ≤ length (llm_calls w) + 1)%nat
    ∧ (mock_mode self = false → ∀ client, llm self = Some client →
         llm_calls w' = llm_calls w ++ [llm_messages system_prompt user_prompt]
         ∧ match client (length (llm_calls w))
                        (llm_messages system_prompt user_prompt) with
           | Raise _ => v = fallback
           | Ok answer =>
               match json_loads py (strip_code_fence answer) with
               | Raise _ => v = fallback
               | Ok parsed => v = parsed
               end
           end).
Proof.
  unfold _call_llm. destruct (mock_mode self) eqn:Hm.
  - exists fallback, w. cbn. repeat split; try lia; discriminate.
  - unfold try_except, bind, llm_invoke, lift, print, ret. cbv zeta.
    destruct (llm self) as [client|] eqn:Hl.
    + destruct (client (length (llm_calls w))
                  (llm_messages system_prompt user_prompt)) as [answer|e] eqn:Hc.
      * destruct (json_loads py (strip_code_fence answer)) as [parsed|e] eqn:Hj.
        -- eexists. eexists. split; [reflexivity|]. cbn [llm_calls].
           split; [discriminate|]. split; [rewrite length_app; cbn; lia|].
           intros _ client' [= <-]. rewrite Hc, Hj. split; reflexivity.
        -- eexists. eexists. split; [reflexivity|]. cbn [llm_calls].
           split; [discriminate|]. split; [rewrite length_app; cbn; lia|].
           intros _ client' [= <-]. rewrite Hc, Hj. split; reflexivity.
      * eexists. eexists. split; [reflexivity|]. cbn [llm_calls].
        split; [discriminate|]. split; [rewrite length_app; cbn; lia|].
        intros _ client' [= <-]. rewrite Hc. split; reflexivity.
    + eexists. eexists. split; [reflexivity|]. cbn [llm_calls].
      split; [discriminate|]. split; [lia|]. intros _ client' [=].
Qed.

End GenerationClient.

Lemma call_llm_contract_witness :
  ∃ v w',
    _call_llm strict_builtins online_copilot "system" "user" (PStr "fallback")
              fresh_world = (Ok v, w')
    ∧ v = PStr "fallback"
    ∧ llm_calls w' = [llm_messages "system" "user"].
Proof.
  destruct (call_llm_contract strict_builtins online_copilot "system" "user"
              (PStr "fallback") fresh_world) as (v & w' & Hrun & _ & _ & Hon).
  destruct (Hon eq_refl service_down eq_refl) as [Hcalls Hv].
  exists v, w'. split; [exact Hrun|]. split; [exact Hv | exact Hcalls].
Defined.

(** C3.  The code breaks the claim.  The client returns the fallback when
    the request raises or [json.loads] raises, and nothing checks that the
    parsed answer is structured data: with a credential and a service that
    answers the architecture request with the text 42, the client returns
    the number 42, which is neither the fallback nor an object nor a list.
    The stage then reads it with [.get], and the run raises
    [AttributeError]. *)
Lemma call_llm_returns_number :
  let self := AgenticCopilot_init (Some "sk-test") service_number_answer in
  let request := llm_messages architecture_sys_p (architecture_user_p valid_payload) in
  mock_mode self = false
  ∧ json_loads loads_number_answer (strip_code_fence "42") = Ok (PInt 42)
  ∧ _call_llm loads_number_answer self architecture_sys_p
              (architecture_user_p valid_payload)
              (architecture_fallback valid_payload) fresh_world
    = (Ok (PInt 42), {| llm_calls := [request]; stdout := [] |})
  ∧ PInt 42 ≠ architecture_fallback valid_payload
  ∧ (∀ kv, PInt 42 ≠ PDict kv) ∧ (∀ l, PInt 42 ≠ PList l)
  ∧ run loads_number_answer self valid_payload fresh_world
    = (Raise AttributeError, {| llm_calls := [request]; stdout := [] |}).
Proof.
  cbv zeta. split; [reflexivity|]. split; [vm_compute; reflexivity|].
  split; [vm_compute; reflexivity|]. split; [discriminate|].
  split; [intros kv; discriminate|]. split; [intros l; discriminate|].
  vm_compute. reflexivity.
Qed.

(** ** The final stage *)

Section FinalStage.
Variable py : Builtins.

(** Read the result of [_final] off a hypothesis that it returned. *)
Ltac invert_final H :=
  unfold _final, bind, lift, ret in H;
  repeat match type of H with
         | context [match ?x with _ => _ end] => destruct x eqn:?
         end;
  try discriminate; inversion H; subst; clear H.

(** The final stage returns on every state with an input and a well-typed
    threat model, when the copilot has no credential. *)
Lemma final_returns_offline (self : AgenticCopilot) (state : AgentState)
    (inp : InputPayload) (w : World) :
  mock_mode self = true → input state = Some inp →
  (∀ v, threat_model state = Some v → truthy v = true → ∃ l, v = PList l) →
  ∃ upd, _final py self state w = (Ok upd, w).
Proof.
  intros Hm Hin Htm. unfold _final, get_input. rewrite Hin.
  cbn [bind lift]. rewrite call_llm_mock by exact Hm. cbn [ret].
  assert (Hr : ∃ r, py_add_list (get_or (threat_model state) (PList []))
                      [PStr CAUTION_LLM; PStr CAUTION_COST] = Ok r).
  { unfold get_or. destruct (threat_model state) as [v|] eqn:Ev; [|eexists; reflexivity].
    destruct (truthy v) eqn:Et; [|eexists; reflexivity].
    destruct (Htm v eq_refl Et) as [l ->]. eexists; reflexivity. }
  destruct Hr as [r ->]. eexists. reflexivity.
Qed.

(** Whatever the mode, a returned dictionary has every field of the report,
    with these values. *)
Lemma final_returned_fields (self : AgenticCopilot) (state : AgentState)
    (w w' : World) (upd : AgentState) :
  _final py self state w = (Ok upd, w') →
  complete_output upd
  ∧ assumptions upd = Some (dedup (from_option id [] (assumptions state)))
  ∧ architecture_options upd = Some (get_or (architecture_options state) (PList []))
  ∧ recommended_option upd = Some (get_or (recommended_option state) (PStr "N/A"))
  ∧ sizing upd = Some (from_option id EmptyDict (sizing state))
  ∧ api_design upd = Some (get_or (api_design state) (PList []))
  ∧ performance_plan upd = Some (from_option id [] (performance_plan state))
  ∧ security_plan upd = Some (get_or (security_plan state) (PList []))
  ∧ reliability_plan upd = Some (from_option id [] (reliability_plan state))
  ∧ mermaid_flow upd = Some (from_option id "" (mermaid_flow state))
  ∧ mermaid_components upd = Some (from_option id "" (mermaid_components state))
  ∧ observability upd = Some (get_or (observability state) (PList []))
  ∧ threat_model upd = Some (get_or (threat_model state) (PList []))
  ∧ (∃ r, risks upd = Some r
          ∧ py_add_list (get_or (threat_model state) (PList []))
                        [PStr CAUTION_LLM; PStr CAUTION_COST] = Ok r).
Proof.
  intros H. invert_final H. cbn.
  unfold complete_output. cbn. repeat split; eauto.
Qed.

End FinalStage.

(** ** The pipeline without credential *)

Section OfflinePipeline.
Local Open Scope py_scope.

(** No credential: the key is missing or empty. *)
Lemma init_mock_mode (api_key : option string) (client : ChatModel) :
  mock_mode (AgenticCopilot_init api_key client) = true
  ↔ api_key = None ∨ api_key = Some "".
Proof.
  unfold AgenticCopilot_init. cbn [mock_mode].
  destruct api_key as [k|]; cbn [from_option].
  - rewrite negb_involutive, String.eqb_eq. split; [intros ->; right; reflexivity|].
    intros [H|H]; [discriminate | injection H as ->; reflexivity].
  - split; [left; reflexivity | reflexivity].
Qed.

(** The compiled workflow is the chain of the eight nodes. *)
Lemma workflow_chain (py : Builtins) (self : AgenticCopilot) :
  workflow py self
  = [ λ s, lift (_intake_validate s);
      λ s, lift (_planner s);
      λ s, lift (_sizing s);
      _architecture py self;
      _apis py self;
      λ s, lift (_perf_rel s);
      _security py self;
      _final py self ].
Proof. reflexivity. Qed.

Lemma agree_pure (f : AgentState → result AgentState) :
  agree (λ s, lift (f s)) (λ s, lift (f s)).
Proof. intros st w1 w2. exists (f st). split; reflexivity. Qed.

Lemma invoke_agree (ns1 ns2 : list Node) :
  Forall2 agree ns1 ns2 → agree (invoke ns1) (invoke ns2).
Proof.
  induction 1 as [|n1 n2 ns1 ns2 Hn _ IH]; intros st w1 w2.
  - exists (Ok st). split; reflexivity.
  - destruct (Hn st w1 w2) as ([u|e] & E1 & E2).
    + destruct (IH (apply_update st u) w1 w2) as (r & R1 & R2).
      exists r. cbn [invoke]. unfold run_node, bind. rewrite E1, E2.
      cbn [ret]. split; assumption.
    + exists (Raise e). cbn [invoke]. unfold run_node, bind. rewrite E1, E2.
      split; reflexivity.
Qed.

Ltac eval_fallback :=
  cbn [dict_get item assoc String.eqb Ascii.eqb Bool.eqb from_option id
       bind lift ret rbind render_flow render_components format_items
       py_iter strs map py_format].

Lemma workflow_agree (py1 py2 : Builtins) (self1 self2 : AgenticCopilot) :
  mock_mode self1 = true → mock_mode self2 = true →
  Forall2 agree (workflow py1 self1) (workflow py2 self2).
Proof.
  intros H1 H2. rewrite !workflow_chain.
  repeat (apply Forall2_cons; split); try apply agree_pure; try apply Forall2_nil_2.
  - intros st w1 w2. unfold _architecture.
    destruct (get_input st) as [inp|e]; cbn [bind lift];
      [|eexists; split; reflexivity].
    rewrite !call_llm_mock by assumption. cbn [ret].
    unfold architecture_fallback. eval_fallback. eexists; split; reflexivity.
  - intros st w1 w2. unfold _apis.
    destruct (get_input st) as [inp|e]; cbn [bind lift];
      [|eexists; split; reflexivity].
    rewrite !call_llm_mock by assumption. cbn [ret].
    eexists; split; reflexivity.
  - intros st w1 w2. unfold _security.
    destruct (get_input st) as [inp|e]; cbn [bind lift];
      [|eexists; split; reflexivity].
    rewrite !call_llm_mock by assumption. cbn [ret].
    unfold security_fallback. eval_fallback. eexists; split; reflexivity.
  - intros st w1 w2. unfold _final.
    destruct (get_input st) as [inp|e]; cbn [bind lift];
      [|eexists; split; reflexivity].
    rewrite !call_llm_mock by assumption. cbn [ret].
    destruct (py_add_list _ _) as [r|e]; [|eexists; split; reflexivity].
    unfold final_fallback. eval_fallback. eexists; split; reflexivity.
Qed.

Lemma invoke_cons_ok (node : Node) (rest : list Node) (st u : AgentState)
    (w : World) :
  node st w = (Ok u, w) →
  invoke (node :: rest) st w = invoke rest (apply_update st u) w.
Proof.
  intros H. cbn [invoke]. unfold run_node, bind at 1 2. rewrite H. reflexivity.
Qed.

Lemma get_or_list (l : list pyval) : get_or (Some (PList l)) (PList []) = PList l.
Proof. destruct l; reflexivity. Qed.

Lemma get_or_title (b : bool) (d : pyval) :
  get_or (Some (PStr (if b then "MVP (monolith)" else "Scale-out"))) d
  = PStr (if b then "MVP (monolith)" else "Scale-out").
Proof. destruct b; reflexivity. Qed.

Ltac merge_update :=
  unfold apply_update;
  cbn [last_value reduce_add input assumptions plan_steps sizing
       architecture_options recommended_option mermaid_flow mermaid_components
       api_design performance_plan reliability_plan security_plan threat_model
       observability summary tech_stack risks phased_rollout].

Ltac enter_node := cbn [get_input input bind lift rbind].

(** A run without credential on a valid input in range: every node
    returns, nothing is sent or printed, and the terminal state is as
    follows.  The assumptions are the accumulated list followed by what
    [_final] returns for it, because the state merges that key by
    concatenation. *)
Lemma run_offline_state (py : Builtins) (self : AgenticCopilot)
    (p : InputPayload) (w : World) :
  mock_mode self = true → valid p → in_range p = true →
  ∃ s q acc,
    run py self p w = (Ok s, w)
    ∧ calc_qps (dau p) (sizing_peak_concurrency p) (read_write_ratio p)
               (sizing_multiplier p) = Ok q
    ∧ complete_output s
    ∧ input s = Some p
    ∧ recommended_option s
      = Some (PStr (if String.eqb (budget_level p) "low"
                    then "MVP (monolith)" else "Scale-out"))
    ∧ sizing s
      = Some (SizingOf {| qps := q; storage := calc_storage 12 8 365 (dau p);
                          bandwidth_gbps :=
                            py_round (peak_qps q * 2 * 1024 / 1000000)%Q 3 |})
    ∧ threat_model s = Some (strs (fallback_threats p))
    ∧ risks s = Some (PList (map PStr (fallback_threats p)
                             ++ [PStr CAUTION_LLM; PStr CAUTION_COST]))
    ∧ assumptions s = Some (acc ++ dedup acc).
Proof.
  intros Hm Hv Hrange.
  assert (Hq : ∃ q, calc_qps (dau p) (sizing_peak_concurrency p)
                      (read_write_ratio p) (sizing_multiplier p) = Ok q)
    by (eexists; apply calc_qps_ok;
        [apply in_range_fits; assumption | apply valid_ratio_pos, Hv]).
  destruct Hq as [q Hq].
  eexists. exists q. eexists. split.
  { unfold run, initial_state. rewrite workflow_chain.
    erewrite invoke_cons_ok;
      [|unfold _intake_validate; enter_node; unfold InputPayload_validate;
        rewrite Hv; reflexivity].
    merge_update.
    erewrite invoke_cons_ok; [|unfold _planner; enter_node; reflexivity].
    merge_update.
    erewrite invoke_cons_ok;
      [|unfold _sizing; enter_node; rewrite Hq; cbn [rbind]; reflexivity].
    merge_update.
    erewrite invoke_cons_ok;
      [|unfold _architecture; enter_node; rewrite call_llm_mock by exact Hm;
        cbn [ret]; unfold architecture_fallback; eval_fallback; reflexivity].
    merge_update.
    erewrite invoke_cons_ok;
      [|unfold _apis; enter_node; rewrite call_llm_mock by exact Hm;
        cbn [ret]; reflexivity].
    merge_update.
    erewrite invoke_cons_ok; [|unfold _perf_rel; enter_node; reflexivity].
    merge_update.
    erewrite invoke_cons_ok;
      [|unfold _security; enter_node; rewrite call_llm_mock by exact Hm;
        cbn [ret]; unfold security_fallback; eval_fallback; reflexivity].
    merge_update.
    erewrite invoke_cons_ok;
      [|unfold _final; enter_node; rewrite call_llm_mock by exact Hm;
        cbn [ret]; merge_update; unfold strs, default_options, apis_fallback;
        rewrite !get_or_list, get_or_title;
        cbn [py_add_list bind lift]; unfold final_fallback; eval_fallback;
        reflexivity].
    merge_update. cbn [invoke ret]. reflexivity. }
  split; [exact Hq|]. split; [unfold complete_output; cbn; repeat split; eauto|].
  repeat split; reflexivity.
Qed.

(** C1.  Without credential, two runs of the pipeline on the same valid
    input have the same outcome, whatever the library functions, the
    configured client and the earlier history of the world are, and neither
    run sends a request or prints a line: the two runs end in the same
    terminal state, or both raise the same exception (as on 10^400 daily
    users, which have no float).  On a valid input in range the outcome is a
    terminal state. *)
Theorem offline_run_deterministic (py1 py2 : Builtins)
    (self1 self2 : AgenticCopilot) (payload : InputPayload) (w1 w2 : World) :
  mock_mode self1 = true → mock_mode self2 = true → valid payload →
  (∃ r, run py1 self1 payload w1 = (r, w1) ∧ run py2 self2 payload w2 = (r, w2))
  ∧ (in_range payload = true →
     ∃ s, run py1 self1 payload w1 = (Ok s, w1)
          ∧ run py2 self2 payload w2 = (Ok s, w2)).
Proof.
  intros H1 H2 Hv.
  destruct (invoke_agree _ _ (workflow_agree py1 py2 self1 self2 H1 H2)
              (initial_state payload) w1 w2) as (r & R1 & R2).
  split; [exists r; split; assumption|].
  intros Hr.
  destruct (run_offline_state py1 self1 payload w1 H1 Hv Hr) as (s & _ & _ & Hs & _).
  exists s. split; [exact Hs|].
  unfold run in *. rewrite R1 in Hs. injection Hs as ->. exact R2.
Qed.

Lemma offline_run_deterministic_witness :
  (∃ s, run strict_builtins offline_copilot valid_payload fresh_world
        = (Ok s, fresh_world)
        ∧ run loads_empty_recommendation
              (AgenticCopilot_init (Some "") service_empty_recommendation)
              valid_payload
              {| llm_calls := [[HumanMessage "earlier"]]; stdout := ["log"] |}
          = (Ok s, {| llm_calls := [[HumanMessage "earlier"]]; stdout := ["log"] |}))
  ∧ (∃ r, run strict_builtins offline_copilot huge_payload fresh_world
          = (r, fresh_world)
          ∧ run loads_empty_recommendation
                (AgenticCopilot_init (Some "") service_empty_recommendation)
                huge_payload
                {| llm_calls := [[HumanMessage "earlier"]]; stdout := ["log"] |}
            = (r, {| llm_calls := [[HumanMessage "earlier"]]; stdout := ["log"] |})).
Proof.
  split.
  - exact (proj2 (offline_run_deterministic strict_builtins loads_empty_recommendation
                    offline_copilot
                    (AgenticCopilot_init (Some "") service_empty_recommendation)
                    valid_payload fresh_world
                    {| llm_calls := [[HumanMessage "earlier"]]; stdout := ["log"] |}
                    eq_refl eq_refl eq_refl) eq_refl).
  - exact (proj1 (offline_run_deterministic strict_builtins loads_empty_recommendation
                    offline_copilot
                    (AgenticCopilot_init (Some "") service_empty_recommendation)
                    huge_payload fresh_world
                    {| llm_calls := [[HumanMessage "earlier"]]; stdout := ["log"] |}
                    eq_refl eq_refl eq_refl)).
Defined.

(** C6.  Without credential, the run on the scenario input (dau 1000, peak
    rps 50, ratio 3, medium budget, steady traffic) ends in a state whose
    recommended option is "Scale-out", the title of the second fallback
    option, whose peak qps is positive (it is 14), and whose risks are at
    least two, the last two being the fixed cautions. *)
Theorem scenario_offline_report (py : Builtins) (self : AgenticCopilot)
    (name desc : string) (w : World) :
  mock_mode self = true →
  ∃ s z l,
    run py self (scenario_input name desc) w = (Ok s, w)
    ∧ recommended_option s = Some (PStr "Scale-out")
    ∧ item (architecture_fallback (scenario_input name desc)) "recommended_option"
      = PStr "Scale-out"
    ∧ (∃ first second, default_options = PList [first; second]
                        ∧ item second "title" = PStr "Scale-out")
    ∧ sizing s = Some (SizingOf z)
    ∧ (peak_qps (qps z) == 14)%Q ∧ (0 < peak_qps (qps z))%Q
    ∧ risks s = Some (PList (l ++ [PStr CAUTION_LLM; PStr CAUTION_COST]))
    ∧ (2 ≤ length (l ++ [PStr CAUTION_LLM; PStr CAUTION_COST]))%nat.
Proof.
  intros Hm.
  destruct (run_offline_state py self (scenario_input name desc) w Hm eq_refl
              eq_refl)
    as (s & q & acc & Hrun & Hq & _ & _ & Hrec & Hsz & _ & Hrisk & _).
  vm_compute in Hq. injection Hq as <-.
  exists s. eexists. eexists.
  split; [exact Hrun|]. split; [exact Hrec|]. split; [reflexivity|].
  split; [eexists; eexists; split; reflexivity|].
  split; [exact Hsz|]. split; [reflexivity|]. split; [reflexivity|].
  split; [exact Hrisk|].
  rewrite length_app. cbn. lia.
Qed.

Lemma scenario_offline_report_witness :
  ∃ s z l,
    run strict_builtins offline_copilot (scenario_input "TestApp" "desc") fresh_world
    = (Ok s, fresh_world)
    ∧ recommended_option s = Some (PStr "Scale-out")
    ∧ item (architecture_fallback (scenario_input "TestApp" "desc")) "recommended_option"
      = PStr "Scale-out"
    ∧ (∃ first second, default_options = PList [first; second]
                        ∧ item second "title" = PStr "Scale-out")
    ∧ sizing s = Some (SizingOf z)
    ∧ (peak_qps (qps z) == 14)%Q ∧ (0 < peak_qps (qps z))%Q
    ∧ risks s = Some (PList (l ++ [PStr CAUTION_LLM; PStr CAUTION_COST]))
    ∧ (2 ≤ length (l ++ [PStr CAUTION_LLM; PStr CAUTION_COST]))%nat.
Proof.
  exact (scenario_offline_report strict_builtins offline_copilot "TestApp" "desc"
           fresh_world eq_refl).
Defined.

End OfflinePipeline.

(** ** The final report *)

Section FinalReport.

(** The dictionary [_final] returns holds, under "assumptions", the
    accumulated ones with every repeated string removed: no string occurs
    twice, the same strings occur, in the order of the accumulated list, and
    an entry is kept exactly when no equal entry precedes it (the loop
    computes [keep_first]).  Without credential [_final] does return, on
    every state with an input and a list as threat model.  This is the
    dictionary the node returns, before the graph merges it into the
    state. *)
Lemma final_assumptions_deduplicated (py : Builtins) (self : AgenticCopilot)
    (state : AgentState) (w : World) :
  let acc := from_option id [] (assumptions state) in
  (∀ upd w', _final py self state w = (Ok upd, w') →
     assumptions upd = Some (dedup acc))
  ∧ (mock_mode self = true → ∀ inp, input state = Some inp →
     (∀ v, threat_model state = Some v → truthy v = true → ∃ l, v = PList l) →
     ∃ upd, _final py self state w = (Ok upd, w)
            ∧ assumptions upd = Some (dedup acc))
  ∧ NoDup (dedup acc)
  ∧ (∀ x, x ∈ dedup acc ↔ x ∈ acc)
  ∧ sublist (dedup acc) acc
  ∧ dedup acc = keep_first acc
  ∧ (∀ l x, dedup (l ++ [x])
            = if decide (x ∈ l) then dedup l else dedup l ++ [x]).
Proof.
  intros acc.
  assert (Hret : ∀ upd w', _final py self state w = (Ok upd, w') →
                   assumptions upd = Some (dedup acc)).
  { intros upd w' H. apply final_returned_fields in H. tauto. }
  destruct (dedup_loop_invariant acc) as (_ & Helem & Hnd & Hsub).
  split; [exact Hret|]. split.
  { intros Hm inp Hin Htm.
    destruct (final_returns_offline py self state inp w Hm Hin Htm) as [upd Hu].
    exists upd. split; [exact Hu | exact (Hret upd w Hu)]. }
  split; [exact Hnd|]. split; [exact Helem|]. split; [exact Hsub|].
  split; [apply dedup_keep_first | apply dedup_snoc].
Qed.

Lemma final_assumptions_deduplicated_witness :
  ∃ upd, _final strict_builtins offline_copilot state_with_repeats fresh_world
         = (Ok upd, fresh_world)
         ∧ assumptions upd = Some ["Inputs normalized"; "Regions: us-east";
                                   "Budget level: medium"].
Proof.
  pose proof (final_assumptions_deduplicated strict_builtins offline_copilot
                state_with_repeats fresh_world) as (_ & Hoff & _).
  destruct (Hoff eq_refl valid_payload eq_refl) as (upd & Hu & Ha).
  - intros v [=].
  - exists upd. split; [exact Hu | exact Ha].
Defined.




(** C9.  The code breaks the claim.  The final stage removes the repeated
    assumptions from the list it returns, but the state merges the key
    "assumptions" by concatenation ([operator.add]): the list of the
    terminal state is the accumulated list followed by the list the final
    stage returned.  On the payload of the tests, without credential, each
    of the five assumptions is in the terminal state twice. *)
Lemma terminal_assumptions_repeat :
  let acc := ["Inputs normalized"; "Traffic pattern is steady with peak 50 rps";
              "Regions: us-east"; "Budget level: medium";
              "Application domain: fintech"] in
  valid valid_payload
  ∧ ∃ s, run strict_builtins offline_copilot valid_payload fresh_world
         = (Ok s, fresh_world)
         ∧ assumptions s = Some (acc ++ acc)
         ∧ dedup acc = acc
         ∧ ¬ NoDup (acc ++ acc).
Proof.
  cbv zeta. split; [reflexivity|].
  eexists. split; [vm_compute; reflexivity|].
  split; [reflexivity|]. split; [vm_compute; reflexivity|].
  intros H. cbn [app] in H. apply NoDup_cons in H as [H _]. apply H.
  rewrite !elem_of_cons. do 4 right. left. reflexivity.
Qed.

End FinalReport.

(** * Further properties of the code *)

(** ** The estimator *)

Section Estimator.
Local Open Scope Q_scope.






(** X1.  The three outcomes of [calc_qps].  It raises [OverflowError] when
    the dau has no float (magnitude 2^1024 - 2^970 or more) or the quotient
    peak_concurrency / 10 has none; otherwise it raises
    [ZeroDivisionError] exactly for the ratio -1, and for every other ratio
    it returns its four numbers. *)
Theorem calc_qps_outcomes (dau c : Z) (ratio burst : Q) :
  ((FLOAT_OVERFLOW <= Z.abs dau)%Z ∨ (10 * FLOAT_OVERFLOW <= Z.abs c)%Z →
     ∃ msg, calc_qps dau c ratio burst = Raise (OverflowError msg))
  ∧ (fits dau c → ratio == -1 →
       calc_qps dau c ratio burst = Raise ZeroDivisionError)
  ∧ (fits dau c → ¬ ratio == -1 → ∃ q, calc_qps dau c ratio burst = Ok q).
Proof.
  split; [|split].
  - intros H. unfold calc_qps.
    destruct (Z.lt_ge_cases (Z.abs dau) FLOAT_OVERFLOW) as [Hd|Hd].
    + destruct H as [H|H]; [lia|].
      rewrite (float_of_int_ok dau Hd). cbn [rbind].
      rewrite (int_truediv_ten_overflow c H). eexists. reflexivity.
    + rewrite (float_of_int_overflow dau Hd). eexists. reflexivity.
  - intros [Hd Hc] H. unfold calc_qps.
    rewrite (float_of_int_ok dau Hd), (int_truediv_ten c Hc). cbn [rbind].
    unfold py_truediv.
    assert (E : Qeq_bool (1 + ratio) 0 = true) by (apply Qeq_bool_iff; lra).
    rewrite E. reflexivity.
  - intros [Hd Hc] H. unfold calc_qps.
    rewrite (float_of_int_ok dau Hd), (int_truediv_ten c Hc). cbn [rbind].
    unfold py_truediv.
    destruct (Qeq_bool (1 + ratio) 0) eqn:E.
    + apply Qeq_bool_iff in E. exfalso. apply H. lra.
    + eexists. reflexivity.
Qed.

Lemma calc_qps_outcomes_witness :
  (∃ msg, calc_qps (10 ^ 400) 100 4 1.5 = Raise (OverflowError msg))
  ∧ calc_qps 1000 100 (-1) 1.5 = Raise ZeroDivisionError
  ∧ ∃ q, calc_qps 1000 100 4 1.5 = Ok q.
Proof.
  assert (F : fits 1000 100) by (split; reflexivity).
  destruct (calc_qps_outcomes (10 ^ 400) 100 4 1.5) as (H0 & _).
  destruct (calc_qps_outcomes 1000 100 (-1) 1.5) as (_ & H1 & _).
  destruct (calc_qps_outcomes 1000 100 4 1.5) as (_ & _ & H2).
  split; [apply H0; left; vm_compute; discriminate|].
  split; [apply H1; [exact F | reflexivity] | apply H2; [exact F | discriminate]].
Defined.





End Estimator.

(** ** The storage estimate *)

Section Storage.
Local Open Scope Q_scope.







End Storage.

(** ** The diagram renderers *)

Section Diagrams.

Lemma foldl_append_each (f : string → string) (init l : list string) :
  foldl (λ lines x, lines ++ [f x]) init l = init ++ map f l.
Proof.
  revert init. induction l as [|x l IH]; intros init; cbn [foldl map].
  - rewrite app_nil_r. reflexivity.
  - rewrite IH, <- app_assoc. reflexivity.
Qed.

Lemma split_on_single_line (s : string) :
  single_line s = true → split_on NEWLINE_CHAR s = [s].
Proof.
  induction s as [|c s IH]; cbn [single_line split_on]; [reflexivity|].
  intros H. apply andb_prop in H as [Hc Hs]. apply negb_true_iff in Hc.
  rewrite Hc, (IH Hs). reflexivity.
Qed.

Lemma split_on_line_break (s rest : string) :
  single_line s = true →
  split_on NEWLINE_CHAR (s +:+ newline +:+ rest) = s :: split_on NEWLINE_CHAR rest.
Proof.
  induction s as [|c s IH]; intros H.
  - reflexivity.
  - cbn [single_line] in H. apply andb_prop in H as [Hc Hs]. apply negb_true_iff in Hc.
    change (String c s +:+ newline +:+ rest) with (String c (s +:+ newline +:+ rest)).
    cbn [split_on]. rewrite Hc, (IH Hs). reflexivity.
Qed.

Lemma split_on_join (l : list string) :
  l ≠ [] → forallb single_line l = true →
  split_on NEWLINE_CHAR (join newline l) = l.
Proof.
  induction l as [|x l IH]; [congruence|]. intros _ H.
  cbn [forallb] in H. apply andb_prop in H as [Hx Hl].
  destruct l as [|y l].
  - cbn. apply split_on_single_line, Hx.
  - change (join newline (x :: y :: l)) with (x +:+ newline +:+ join newline (y :: l)).
    rewrite split_on_line_break by exact Hx.
    rewrite IH by (try exact Hl; congruence). reflexivity.
Qed.

Lemma single_line_indent (x : string) :
  single_line ("  " +:+ x) = single_line x.
Proof. reflexivity. Qed.

(** X6.  The flow diagram is the header line, then one line per component, then
    one line per flow, each indented by two spaces and in the order given;
    the component diagram is its own header and the same component lines.
    When no item holds a line break, splitting the text at line breaks gives
    these lines back, so the flow diagram has 1 + components + flows lines. *)
Theorem mermaid_lines (components flows : list string) :
  let indent := λ x : string, "  " +:+ x in
  generate_mermaid_flow components flows
  = join newline ("flowchart TD" :: map indent components ++ map indent flows)
  ∧ generate_mermaid_components components
    = join newline ("graph LR" :: map indent components)
  ∧ (forallb single_line (components ++ flows) = true →
       split_on NEWLINE_CHAR (generate_mermaid_flow components flows)
       = "flowchart TD" :: map indent components ++ map indent flows
       ∧ split_on NEWLINE_CHAR (generate_mermaid_components components)
         = "graph LR" :: map indent components
       ∧ length (split_on NEWLINE_CHAR (generate_mermaid_flow components flows))
         = S (length components + length flows)).
Proof.
  intros indent.
  assert (E1 : generate_mermaid_flow components flows
               = join newline ("flowchart TD" :: map indent components ++ map indent flows)).
  { unfold generate_mermaid_flow. rewrite !foldl_append_each, <- app_assoc. reflexivity. }
  assert (E2 : generate_mermaid_components components
               = join newline ("graph LR" :: map indent components)).
  { unfold generate_mermaid_components. rewrite foldl_append_each. reflexivity. }
  split; [exact E1|]. split; [exact E2|].
  intros H. rewrite forallb_app in H. apply andb_prop in H as [Hc Hf].
  assert (Hi : ∀ l, forallb single_line l = true →
                    forallb single_line (map indent l) = true).
  { intros l. induction l as [|x l IH]; [reflexivity|]. cbn [forallb map].
    intros Hx. apply andb_prop in Hx as [Hx Hl]. unfold indent at 1.
    rewrite single_line_indent, Hx. cbn. apply IH, Hl. }
  rewrite E1, E2, !split_on_join.
  - split; [reflexivity|]. split; [reflexivity|].
    cbn [length]. rewrite length_app, !length_map. reflexivity.
  - congruence.
  - cbn [forallb]. rewrite Hi by exact Hc. reflexivity.
  - congruence.
  - cbn [forallb]. rewrite forallb_app, !Hi by assumption. reflexivity.
Qed.

Lemma mermaid_lines_witness :
  split_on NEWLINE_CHAR (generate_mermaid_flow ["A[Client]"; "B[LB]"] ["A-->B"])
  = ["flowchart TD"; "  A[Client]"; "  B[LB]"; "  A-->B"].
Proof.
  destruct (mermaid_lines ["A[Client]"; "B[LB]"] ["A-->B"]) as (_ & _ & H).
  destruct (H eq_refl) as (H1 & _). exact H1.
Defined.

End Diagrams.

(** ** More on the risk classifier *)

Section RiskMore.

Lemma existsb_same_members {A} (p : A → bool) (l l' : list A) :
  (∀ x, In x l ↔ In x l') → existsb p l = existsb p l'.
Proof.
  intros H. apply eq_true_iff_eq. rewrite !existsb_exists.
  split; intros (x & Hx & Hp); exists x; (split; [apply H, Hx | exact Hp]).
Qed.

Lemma risk_checklist_shape (flags types : list string) :
  risk_checklist flags types
  = (if existsb is_health_tag (flags ++ types)
        || existsb is_card_tag (flags ++ types)
        || existsb is_personal_tag types
     then (if existsb is_health_tag (flags ++ types) then [PHI_ADVISORY] else [])
          ++ (if existsb is_card_tag (flags ++ types) then [PCI_ADVISORY] else [])
          ++ (if existsb is_personal_tag types then [PII_ADVISORY] else [])
     else [GENERIC_ADVISORY]).
Proof.
  unfold risk_checklist.
  destruct (existsb is_health_tag _), (existsb is_card_tag _),
    (existsb is_personal_tag _); reflexivity.
Qed.

(** X7.  The checklist has between one and three advisories; the generic
    advisory is there exactly when it is the whole checklist; and the
    personal-data advisory is there exactly when a data type is a personal
    tag: a personal tag among the compliance flags does not count. *)
Theorem risk_checklist_bounds (compliance_flags data_types : list string) :
  (1 ≤ length (risk_checklist compliance_flags data_types) ≤ 3)%nat
  ∧ (In GENERIC_ADVISORY (risk_checklist compliance_flags data_types)
     ↔ risk_checklist compliance_flags data_types = [GENERIC_ADVISORY])
  ∧ (In PII_ADVISORY (risk_checklist compliance_flags data_types)
     ↔ ∃ t, In t data_types ∧ upper t = "PII").
Proof.
  rewrite risk_checklist_shape.
  assert (Hp : existsb is_personal_tag data_types = true
               ↔ ∃ t, In t data_types ∧ upper t = "PII").
  { rewrite existsb_exists. split; intros (t & Ht & H); exists t;
      (split; [exact Ht | apply is_personal_tag_upper, H]). }
  destruct (existsb is_health_tag _), (existsb is_card_tag _),
    (existsb is_personal_tag data_types) eqn:Ep; cbn;
    (split; [lia|]);
    (split; [split; [intros H; repeat destruct H as [H|H]; try discriminate; try contradiction; reflexivity
                    | intros H; try discriminate; left; reflexivity]|]);
    (split; [intros H; repeat destruct H as [H|H]; try discriminate; try contradiction;
               apply Hp; reflexivity
            | intros H; apply Hp in H; try discriminate; auto 6]).
Qed.

Lemma risk_checklist_bounds_witness :
  risk_checklist ["PII"; "pii"] ["email"] = [GENERIC_ADVISORY]
  ∧ ¬ In PII_ADVISORY (risk_checklist ["PII"; "pii"] ["email"]).
Proof.
  destruct (risk_checklist_bounds ["PII"; "pii"] ["email"]) as (_ & Hg & Hp).
  split.
  - apply Hg. left. reflexivity.
  - intros H. apply Hp in H as (t & [<-|[]] & Ht). discriminate.
Defined.

(** X8.  The checklist depends only on which tags are given, not on their order
    or on how often a tag is repeated. *)
Theorem risk_checklist_same_tags (flags flags' types types' : list string) :
  (∀ t, In t flags ↔ In t flags') → (∀ t, In t types ↔ In t types') →
  risk_checklist flags types = risk_checklist flags' types'.
Proof.
  intros Hf Ht.
  assert (Hall : ∀ t, In t (flags ++ types) ↔ In t (flags' ++ types'))
    by (intros t; rewrite !in_app_iff, Hf, Ht; reflexivity).
  rewrite !risk_checklist_shape.
  rewrite (existsb_same_members is_health_tag _ _ Hall).
  rewrite (existsb_same_members is_card_tag _ _ Hall).
  rewrite (existsb_same_members is_personal_tag _ _ Ht).
  reflexivity.
Qed.

Lemma risk_checklist_same_tags_witness :
  risk_checklist ["HIPAA"; "pci"] ["PII"; "card"]
  = risk_checklist ["pci"; "HIPAA"; "pci"] ["card"; "PII"; "PII"].
Proof.
  apply risk_checklist_same_tags; intros t; cbn; tauto.
Defined.

(** X9.  The fallback threat model of the security stage: an input without data
    types is classified as if it held the data type "PII", so the
    personal-data advisory is there and the generic one is not; and with
    neither compliance flags nor data types the personal-data advisory is
    the whole threat model. *)
Theorem fallback_threats_default (inp : InputPayload) :
  data_types inp = [] →
  In PII_ADVISORY (fallback_threats inp)
  ∧ ¬ In GENERIC_ADVISORY (fallback_threats inp)
  ∧ (compliance inp = [] → fallback_threats inp = [PII_ADVISORY]).
Proof.
  intros Hd. unfold fallback_threats. rewrite Hd. cbn [list_or].
  split; [|split].
  - rewrite risk_checklist_shape.
    change (existsb is_personal_tag ["PII"]) with true.
    rewrite orb_true_r.
    destruct (existsb is_health_tag _), (existsb is_card_tag _); cbn; auto.
  - rewrite risk_checklist_shape.
    change (existsb is_personal_tag ["PII"]) with true.
    rewrite orb_true_r.
    destruct (existsb is_health_tag _), (existsb is_card_tag _); cbn;
      intros H; repeat destruct H as [H|H]; try discriminate; contradiction.
  - intros Hc. rewrite Hc. reflexivity.
Qed.

Lemma fallback_threats_default_witness :
  In PII_ADVISORY (fallback_threats valid_payload)
  ∧ ¬ In GENERIC_ADVISORY (fallback_threats valid_payload)
  ∧ (compliance valid_payload = [] → fallback_threats valid_payload = [PII_ADVISORY]).
Proof. exact (fallback_threats_default valid_payload eq_refl). Defined.

End RiskMore.

(** ** Input validation *)

Section Validation.
Local Open Scope Q_scope.

Lemma opt_ok_spec {A} (ok : A → bool) (P : A → Prop) (o : option A) :
  (∀ x, ok x = true ↔ P x) →
  opt_ok ok o = true ↔ ∀ x, o = Some x → P x.
Proof.
  intros H. destruct o as [x|]; cbn [opt_ok].
  - rewrite H. split; [intros Hp y [= <-]; exact Hp | intros Hp; apply Hp; reflexivity].
  - split; [intros _ y [=] | reflexivity].
Qed.

Lemma Qlt_not_le_bool (a : Q) : negb (Qle_bool a 0) = true ↔ 0 < a.
Proof.
  rewrite negb_true_iff. split.
  - intros H. apply Qnot_le_lt. intros Hle. apply Qle_bool_iff in Hle. congruence.
  - intros H. destruct (Qle_bool a 0) eqn:E; [|reflexivity].
    apply Qle_bool_iff in E. lra.
Qed.

(** X10.  Construction of an [InputPayload] either returns the payload unchanged
    or raises [ValidationError]; it returns exactly when the dau and the
    peak rps are at least 1, the ratio is positive, the budget level is one
    of "low", "medium", "high" and the traffic pattern one of "steady",
    "spiky" (as written, in lower case), and every optional number that is
    given is within its bound. *)
Theorem input_validation (p : InputPayload) :
  (InputPayload_validate p = Ok p ∨ InputPayload_validate p = Raise ValidationError)
  ∧ (InputPayload_validate p = Ok p ↔
       (1 <= dau p)%Z ∧ (1 <= peak_rps p)%Z ∧ 0 < read_write_ratio p
       ∧ (∀ n, peak_concurrent_users p = Some n → (1 <= n)%Z)
       ∧ (∀ n, latency_target_ms_p50 p = Some n → (1 <= n)%Z)
       ∧ (∀ n, latency_target_ms_p95 p = Some n → (1 <= n)%Z)
       ∧ (∀ a, availability_target p = Some a → 0.9 <= a ∧ a <= 1)
       ∧ (∀ h, rpo_hours p = Some h → 0 <= h)
       ∧ (∀ h, rto_hours p = Some h → 0 <= h)
       ∧ (∀ n, api_rate_limits_rpm p = Some n → (0 <= n)%Z)
       ∧ (∀ n, team_size p = Some n → (1 <= n)%Z)
       ∧ In (budget_level p) ["low"; "medium"; "high"]
       ∧ In (traffic_pattern p) ["steady"; "spiky"]).
Proof.
  unfold InputPayload_validate.
  split; [destruct (fields_ok p); [left|right]; reflexivity|].
  transitivity (fields_ok p = true).
  { destruct (fields_ok p); split; intros H; try reflexivity; discriminate. }
  unfold fields_ok. rewrite !andb_true_iff.
  rewrite !Z.leb_le, Qlt_not_le_bool.
  rewrite !(opt_ok_spec (Z.leb 1) (λ n, (1 <= n)%Z)) by (intros; apply Z.leb_le).
  rewrite (opt_ok_spec (Z.leb 0) (λ n, (0 <= n)%Z)) by (intros; apply Z.leb_le).
  rewrite !(opt_ok_spec (Qle_bool 0) (λ h, 0 <= h)) by (intros; apply Qle_bool_iff).
  rewrite (opt_ok_spec (λ a, Qle_bool 0.9 a && Qle_bool a 1) (λ a, 0.9 <= a ∧ a <= 1))
    by (intros; rewrite andb_true_iff, !Qle_bool_iff; reflexivity).
  unfold validate_budget, validate_pattern, str_in. rewrite !existsb_exists.
  assert (Hin : ∀ (v : string) l, (∃ x, In x l ∧ String.eqb v x = true) ↔ In v l).
  { intros v l. split.
    - intros (x & Hx & E). apply String.eqb_eq in E. subst. exact Hx.
    - intros H. exists v. split; [exact H | apply String.eqb_refl]. }
  rewrite !Hin. clear Hin.
  split; intros H;
    repeat match goal with H : _ ∧ _ |- _ => destruct H end;
    repeat apply conj; assumption.
Qed.

Lemma input_validation_witness :
  InputPayload_validate ultra_budget_payload = Raise ValidationError
  ∧ InputPayload_validate erratic_pattern_payload = Raise ValidationError
  ∧ In (budget_level valid_payload) ["low"; "medium"; "high"].
Proof.
  destruct (input_validation ultra_budget_payload) as [[H|H] Hu].
  { apply Hu in H. exfalso.
    destruct H as (_ & _ & _ & _ & _ & _ & _ & _ & _ & _ & _ & Hb & _).
    cbn in Hb. intuition discriminate. }
  destruct (input_validation erratic_pattern_payload) as [[H'|H'] He].
  { apply He in H'. exfalso.
    destruct H' as (_ & _ & _ & _ & _ & _ & _ & _ & _ & _ & _ & _ & Ht).
    cbn in Ht. intuition discriminate. }
  destruct (input_validation valid_payload) as [_ Hv].
  destruct Hv as [Hv _]. specialize (Hv eq_refl).
  split; [exact H|]. split; [exact H'|]. tauto.
Defined.

End Validation.

(** ** The generation client, once more *)

Section ClientEffects.
Variable py : Builtins.
Local Open Scope py_scope.

Lemma call_llm_returns (self : AgenticCopilot) (sp up : string) (fb : pyval)
    (w : World) :
  ∃ v w', _call_llm py self sp up fb w = (Ok v, w').
Proof.
  unfold _call_llm, try_except, bind, llm_invoke, lift, print, ret.
  destruct (mock_mode self); [eexists; eexists; reflexivity|].
  destruct (llm self) as [client|]; [|eexists; eexists; reflexivity].
  destruct (client _ _); [|eexists; eexists; reflexivity].
  cbv zeta. destruct (json_loads py _); eexists; eexists; reflexivity.
Qed.

(** With a credential, an answer that parses is returned as it is, whatever
    its type, after one logged request and without a printed line. *)
Lemma call_llm_parsed (self : AgenticCopilot) (client : ChatModel)
    (sp up answer : string) (fb v : pyval) (w : World) :
  mock_mode self = false → llm self = Some client →
  client (length (llm_calls w)) (llm_messages sp up) = Ok answer →
  json_loads py (strip_code_fence answer) = Ok v →
  _call_llm py self sp up fb w
  = (Ok v, {| llm_calls := llm_calls w ++ [llm_messages sp up];
              stdout := stdout w |}).
Proof.
  intros Hm Hl Hc Hj.
  unfold _call_llm, try_except, bind, llm_invoke, lift.
  rewrite Hm, Hl, Hc. cbv zeta. rewrite Hj. reflexivity.
Qed.

Lemma call_llm_unusable (self : AgenticCopilot) (sp up : string) (fb : pyval)
    (w : World) :
  service_unusable py self →
  ∃ line, _call_llm py self sp up fb w
          = (Ok fb, {| llm_calls := llm_calls w ++ [llm_messages sp up];
                       stdout := stdout w ++ [line] |}).
Proof.
  intros (Hm & client & Hl & Hc).
  unfold _call_llm, try_except, bind, llm_invoke, lift, print, ret.
  rewrite Hm, Hl. specialize (Hc (length (llm_calls w)) (llm_messages sp up)).
  destruct (client _ _) as [answer|e]; [|eexists; reflexivity].
  destruct Hc as [e He]. cbv zeta. rewrite He. eexists; reflexivity.
Qed.

Lemma always_fallback_mock (self : AgenticCopilot) :
  mock_mode self = true → always_fallback py self.
Proof. intros Hm sp up fb w. rewrite call_llm_mock by exact Hm. reflexivity. Qed.

Lemma always_fallback_unusable (self : AgenticCopilot) :
  service_unusable py self → always_fallback py self.
Proof.
  intros Hu sp up fb w. destruct (call_llm_unusable self sp up fb w Hu) as [line ->].
  reflexivity.
Qed.

(** *** How the world grows *)

Lemma grows_weaken {A} (k k' : nat) (m : M A) :
  (k ≤ k')%nat → grows k m → grows k' m.
Proof.
  intros Hk Hm w. destruct (Hm w) as (calls & lines & E1 & E2 & L1 & L2).
  exists calls, lines. repeat split; try assumption; lia.
Qed.

Lemma grows_lift {A} (r : result A) : grows 0 (lift r).
Proof.
  intros w. exists [], []. cbn. rewrite !app_nil_r. repeat split; lia.
Qed.

Lemma grows_ret {A} (a : A) : grows 0 (ret a).
Proof. apply (grows_lift (Ok a)). Qed.

Lemma grows_bind {A B} (k1 k2 : nat) (m : M A) (f : A → M B) :
  grows k1 m → (∀ a, grows k2 (f a)) → grows (k1 + k2) (bind m f).
Proof.
  intros Hm Hf w. unfold bind.
  destruct (Hm w) as (c1 & l1 & E1 & E2 & L1 & L2).
  destruct (m w) as [[a|e] w1]; cbn [snd] in *.
  - destruct (Hf a w1) as (c2 & l2 & F1 & F2 & M1 & M2).
    exists (c1 ++ c2), (l1 ++ l2).
    rewrite F1, F2, E1, E2, <- !app_assoc, !length_app.
    repeat split; lia.
  - exists c1, l1. cbn [snd]. repeat split; try assumption; lia.
Qed.

Lemma grows_call_llm (self : AgenticCopilot) (sp up : string) (fb : pyval) :
  grows (if mock_mode self then 0 else 1) (_call_llm py self sp up fb).
Proof.
  intros w. unfold _call_llm, try_except, bind, llm_invoke, lift, print, ret.
  destruct (mock_mode self).
  { exists [], []. cbn. rewrite !app_nil_r. repeat split; lia. }
  destruct (llm self) as [client|].
  - destruct (client _ _) as [answer|e]; cbv zeta.
    + destruct (json_loads py _) as [v|e]; cbn [snd llm_calls stdout].
      * exists [llm_messages sp up], []. rewrite app_nil_r.
        split; [reflexivity|]. split; [reflexivity|]. cbn. lia.
      * exists [llm_messages sp up], ["LLM Error: " +:+ exn_str e].
        split; [reflexivity|]. split; [reflexivity|]. cbn. lia.
    + cbn [snd llm_calls stdout].
      exists [llm_messages sp up], ["LLM Error: " +:+ exn_str e].
      split; [reflexivity|]. split; [reflexivity|]. cbn. lia.
  - cbn [snd llm_calls stdout].
    exists [], ["LLM Error: " +:+ exn_str AttributeError]. rewrite app_nil_r.
    split; [reflexivity|]. split; [reflexivity|]. cbn. lia.
Qed.

End ClientEffects.

(** ** What a run sends and prints *)

Section PipelineEffects.
Local Open Scope py_scope.

Ltac grows_pure :=
  repeat first
    [ apply grows_ret
    | apply grows_lift
    | apply (grows_bind 0 0); [apply grows_lift | intros ?] ].

Ltac grows_stage :=
  intros st; apply (grows_bind 0); [apply grows_lift | intros inp]; cbv zeta;
  match goal with
  | |- grows ?b _ => apply (grows_weaken (b + 0) b); [lia|]
  end;
  apply grows_bind; [apply grows_call_llm | intros res; grows_pure].

Lemma grows_pure_node (f : AgentState → result AgentState) (st : AgentState) :
  grows 0 (lift (f st)).
Proof. apply grows_lift. Qed.

Lemma workflow_grows (py : Builtins) (self : AgenticCopilot) :
  let b := if mock_mode self then 0%nat else 1%nat in
  Forall2 (λ k (n : Node), ∀ st, grows k (n st))
          [0; 0; 0; b; b; 0; b; b]%nat (workflow py self).
Proof.
  intros b. rewrite workflow_chain.
  repeat (apply Forall2_cons; split); try apply Forall2_nil_2;
    try (intros st; apply grows_lift).
  - unfold _architecture. grows_stage.
  - unfold _apis. grows_stage.
  - unfold _security. grows_stage.
  - unfold _final. grows_stage.
Qed.

Lemma invoke_grows (ks : list nat) (ns : list Node) :
  Forall2 (λ k (n : Node), ∀ st, grows k (n st)) ks ns →
  ∀ st, grows (sum_list ks) (invoke ns st).
Proof.
  induction 1 as [|k n ks ns Hn _ IH]; intros st; cbn [invoke sum_list].
  - apply grows_ret.
  - apply (grows_bind k (sum_list ks)); [|exact IH].
    unfold run_node. apply (grows_weaken (k + 0) k); [lia|].
    apply grows_bind; [apply Hn | intros u; apply grows_ret].
Qed.

(** X11.  A run sends at most four requests, one for each of the four generating
    stages, and prints at most four lines, whatever the service answers and
    whether the run returns or raises; without credential it sends and
    prints nothing.  What was logged and printed before stays in place. *)
Theorem run_request_budget (py : Builtins) (self : AgenticCopilot)
    (payload : InputPayload) (w : World) :
  ∃ calls lines,
    llm_calls (run py self payload w).2 = llm_calls w ++ calls
    ∧ stdout (run py self payload w).2 = stdout w ++ lines
    ∧ (length calls ≤ 4)%nat ∧ (length lines ≤ 4)%nat
    ∧ (mock_mode self = true → calls = [] ∧ lines = []).
Proof.
  destruct (invoke_grows _ _ (workflow_grows py self) (initial_state payload) w)
    as (calls & lines & E1 & E2 & L1 & L2).
  exists calls, lines. split; [exact E1|]. split; [exact E2|].
  destruct (mock_mode self); cbn in L1, L2.
  - split; [lia|]. split; [lia|]. intros _.
    destruct calls, lines; cbn in L1, L2; try lia. split; reflexivity.
  - split; [lia|]. split; [lia|]. discriminate.
Qed.

Lemma run_request_budget_witness :
  ∃ calls lines,
    llm_calls (run strict_builtins online_copilot valid_payload fresh_world).2
    = llm_calls fresh_world ++ calls
    ∧ stdout (run strict_builtins online_copilot valid_payload fresh_world).2
      = stdout fresh_world ++ lines
    ∧ (length calls ≤ 4)%nat ∧ (length lines ≤ 4)%nat
    ∧ (mock_mode online_copilot = true → calls = [] ∧ lines = []).
Proof.
  exact (run_request_budget strict_builtins online_copilot valid_payload fresh_world).
Defined.

(** *** Exact counts *)

Lemma adds_lift {A} (r : result A) : adds 0 (lift r).
Proof. intros w a w' [= _ <-]. lia. Qed.

Lemma adds_ret {A} (a : A) : adds 0 (ret a).
Proof. apply (adds_lift (Ok a)). Qed.

Lemma adds_bind {A B} (k1 k2 : nat) (m : M A) (f : A → M B) :
  adds k1 m → (∀ a, adds k2 (f a)) → adds (k1 + k2) (bind m f).
Proof.
  intros Hm Hf w b w' H. unfold bind in H.
  destruct (m w) as [[a|e] w1] eqn:E; [|discriminate].
  destruct (Hm w a w1 E) as [C1 S1]. destruct (Hf a w1 b w' H) as [C2 S2]. lia.
Qed.

Lemma adds_call_llm (py : Builtins) (self : AgenticCopilot) (sp up : string)
    (fb : pyval) :
  service_unusable py self → adds 1 (_call_llm py self sp up fb).
Proof.
  intros Hu w a w' H.
  destruct (call_llm_unusable py self sp up fb w Hu) as [line E].
  rewrite E in H. injection H as _ <-. cbn. rewrite !length_app. cbn. lia.
Qed.

Ltac adds_pure :=
  repeat first
    [ apply adds_ret
    | apply adds_lift
    | apply (adds_bind 0 0); [apply adds_lift | intros ?] ].

Ltac adds_stage Hu :=
  intros st; apply (adds_bind 0 1); [apply adds_lift | intros inp]; cbv zeta;
  apply (adds_bind 1 0); [apply adds_call_llm, Hu | intros res; adds_pure].

Lemma workflow_adds (py : Builtins) (self : AgenticCopilot) :
  service_unusable py self →
  Forall2 (λ k (n : Node), ∀ st, adds k (n st))
          [0; 0; 0; 1; 1; 0; 1; 1]%nat (workflow py self).
Proof.
  intros Hu. rewrite workflow_chain.
  repeat (apply Forall2_cons; split); try apply Forall2_nil_2;
    try (intros st; apply adds_lift).
  - unfold _architecture. adds_stage Hu.
  - unfold _apis. adds_stage Hu.
  - unfold _security. adds_stage Hu.
  - unfold _final. adds_stage Hu.
Qed.

Lemma invoke_adds (ks : list nat) (ns : list Node) :
  Forall2 (λ k (n : Node), ∀ st, adds k (n st)) ks ns →
  ∀ st, adds (sum_list ks) (invoke ns st).
Proof.
  induction 1 as [|k n ks ns Hn _ IH]; intros st; cbn [invoke sum_list].
  - apply adds_ret.
  - apply (adds_bind k (sum_list ks)); [|exact IH].
    unfold run_node. replace k with (k + 0)%nat by lia.
    apply adds_bind; [apply Hn | intros u; apply adds_ret].
Qed.

(** *** Same result as without credential *)

Lemma invoke_same_result (ns1 ns2 : list Node) :
  Forall2 same_result ns1 ns2 → same_result (invoke ns1) (invoke ns2).
Proof.
  induction 1 as [|n1 n2 ns1 ns2 Hn _ IH]; intros st w1 w2; [reflexivity|].
  cbn [invoke]. unfold run_node, bind. specialize (Hn st w1 w2).
  destruct (n1 st w1) as [[u1|e1] w1'], (n2 st w2) as [[u2|e2] w2'];
    cbn [fst] in Hn; try discriminate; injection Hn as ->; cbn [ret].
  - apply IH.
  - reflexivity.
Qed.

Ltac eval_fallback :=
  cbn [dict_get item assoc String.eqb Ascii.eqb Bool.eqb from_option id
       bind lift ret rbind render_flow render_components format_items
       py_iter strs map py_format].

Ltac take_fallback H1 H2 :=
  unfold bind at 1;
  match goal with
  | |- context [_call_llm ?py ?self ?sp ?up ?fb ?w] =>
      let E := fresh "E" in
      pose proof (H1 sp up fb w) as E;
      destruct (_call_llm py self sp up fb w) as [? ?]; cbn [fst] in E; subst
  end;
  symmetry; unfold bind at 1;
  match goal with
  | |- context [_call_llm ?py ?self ?sp ?up ?fb ?w] =>
      let E := fresh "E" in
      pose proof (H2 sp up fb w) as E;
      destruct (_call_llm py self sp up fb w) as [? ?]; cbn [fst] in E; subst
  end.

Lemma workflow_same_result (py1 py2 : Builtins) (self1 self2 : AgenticCopilot) :
  always_fallback py1 self1 → always_fallback py2 self2 →
  Forall2 same_result (workflow py1 self1) (workflow py2 self2).
Proof.
  intros H1 H2. rewrite !workflow_chain.
  repeat (apply Forall2_cons; split); try apply Forall2_nil_2;
    try (intros st w1 w2; reflexivity).
  - intros st w1 w2. unfold _architecture.
    destruct (get_input st) as [inp|e]; cbn [bind lift]; [|reflexivity].
    take_fallback H1 H2.
    unfold architecture_fallback. eval_fallback. reflexivity.
  - intros st w1 w2. unfold _apis.
    destruct (get_input st) as [inp|e]; cbn [bind lift]; [|reflexivity].
    take_fallback H1 H2. reflexivity.
  - intros st w1 w2. unfold _security.
    destruct (get_input st) as [inp|e]; cbn [bind lift]; [|reflexivity].
    take_fallback H1 H2.
    unfold security_fallback. eval_fallback. reflexivity.
  - intros st w1 w2. unfold _final.
    destruct (get_input st) as [inp|e]; cbn [bind lift]; [|reflexivity].
    take_fallback H1 H2.
    destruct (py_add_list _ _) as [r|e]; cbn [bind lift]; [|reflexivity].
    unfold final_fallback. eval_fallback. reflexivity.
Qed.

(** X12.  With a credential but a service that fails or answers unparsable
    text on every request, the run on a valid input in range (dau, peak rps
    and peak concurrency at most 10^12) still returns, and its terminal
    state is the one every run without credential ends in; it has sent
    exactly four requests and printed exactly four lines. *)
Theorem run_degrades_to_offline (py : Builtins) (self : AgenticCopilot)
    (payload : InputPayload) (w : World) :
  valid payload → in_range payload = true → service_unusable py self →
  ∃ s w',
    run py self payload w = (Ok s, w')
    ∧ (∀ py0 self0 w0, mock_mode self0 = true →
         run py0 self0 payload w0 = (Ok s, w0))
    ∧ length (llm_calls w') = (length (llm_calls w) + 4)%nat
    ∧ length (stdout w') = (length (stdout w) + 4)%nat.
Proof.
  intros Hv Hrange Hu.
  destruct (run_offline_state py offline_copilot payload w eq_refl Hv Hrange)
    as (s & _ & _ & Hoff & _).
  pose proof (invoke_same_result _ _
                (workflow_same_result py py self offline_copilot
                   (always_fallback_unusable py self Hu)
                   (always_fallback_mock py offline_copilot eq_refl))
                (initial_state payload) w w) as Hsame.
  fold (run py self payload) (run py offline_copilot payload) in Hsame.
  rewrite Hoff in Hsame. cbn [fst] in Hsame.
  destruct (run py self payload w) as [r w'] eqn:Hrun. cbn [fst] in Hsame. subst r.
  exists s, w'. split; [reflexivity|]. split.
  - intros py0 self0 w0 Hm0.
    destruct (run_offline_state py0 self0 payload w0 Hm0 Hv Hrange)
      as (s0 & _ & _ & H0 & _).
    pose proof (invoke_same_result _ _
                  (workflow_same_result py0 py self0 offline_copilot
                     (always_fallback_mock py0 self0 Hm0)
                     (always_fallback_mock py offline_copilot eq_refl))
                  (initial_state payload) w0 w) as Hs0.
    fold (run py0 self0 payload) (run py offline_copilot payload) in Hs0.
    rewrite H0, Hoff in Hs0. cbn [fst] in Hs0. injection Hs0 as ->. exact H0.
  - exact (invoke_adds _ _ (workflow_adds py self Hu) (initial_state payload)
             w s w' Hrun).
Qed.

Lemma run_degrades_to_offline_witness :
  ∃ s w',
    run strict_builtins online_copilot valid_payload fresh_world = (Ok s, w')
    ∧ (∀ py0 self0 w0, mock_mode self0 = true →
         run py0 self0 valid_payload w0 = (Ok s, w0))
    ∧ length (llm_calls w') = (length (llm_calls fresh_world) + 4)%nat
    ∧ length (stdout w') = (length (stdout fresh_world) + 4)%nat.
Proof.
  apply (run_degrades_to_offline strict_builtins online_copilot valid_payload
           fresh_world eq_refl eq_refl).
  split; [reflexivity|]. exists service_down. split; [reflexivity|].
  intros n messages. exact I.
Defined.

End PipelineEffects.

(** ** Errors and edge cases of the pipeline *)

Section PipelineEdges.
Local Open Scope py_scope.

Ltac merge_update :=
  unfold apply_update;
  cbn [last_value reduce_add input assumptions plan_steps sizing
       architecture_options recommended_option mermaid_flow mermaid_components
       api_design performance_plan reliability_plan security_plan threat_model
       observability summary tech_stack risks phased_rollout].

Ltac enter_node := cbn [get_input input bind lift rbind].

Ltac eval_fallback :=
  cbn [dict_get item assoc String.eqb Ascii.eqb Bool.eqb from_option id
       bind lift ret rbind render_flow render_components format_items
       py_iter strs map py_format].

Lemma invoke_cons_raise (node : Node) (rest : list Node) (st : AgentState)
    (e : exn) (w w' : World) :
  node st w = (Raise e, w') → invoke (node :: rest) st w = (Raise e, w').
Proof.
  intros H. cbn [invoke]. unfold run_node, bind at 1 2. rewrite H. reflexivity.
Qed.


(** X13.  A payload that fails validation stops the run in the intake node: the
    run raises [ValidationError], in every mode, before anything is sent or
    printed. *)
Theorem run_rejects_invalid (py : Builtins) (self : AgenticCopilot)
    (payload : InputPayload) (w : World) :
  ¬ valid payload → run py self payload w = (Raise ValidationError, w).
Proof.
  intros Hv. unfold run. rewrite workflow_chain.
  apply invoke_cons_raise. unfold lift, _intake_validate, initial_state.
  cbn [get_input input rbind]. unfold InputPayload_validate.
  destruct (fields_ok payload) eqn:E; [contradiction|reflexivity].
Qed.

Lemma run_rejects_invalid_witness :
  run strict_builtins online_copilot ultra_budget_payload fresh_world
  = (Raise ValidationError, fresh_world).
Proof.
  apply run_rejects_invalid. unfold valid. vm_compute. discriminate.
Defined.

(** X14.  With a credential, when the answer to the architecture request
    parses to anything but an object (a list, a string, a number, null), the
    run on a valid input in range (dau, peak rps and peak concurrency at
    most 10^12) raises [AttributeError] right after that one request: the
    stage reads the answer with [.get] outside the guarded call. *)
Theorem run_raises_on_non_object (py : Builtins) (self : AgenticCopilot)
    (client : ChatModel) (payload : InputPayload) (answer : string) (v : pyval)
    (w : World) :
  valid payload → in_range payload = true →
  mock_mode self = false → llm self = Some client →
  client (length (llm_calls w))
         (llm_messages architecture_sys_p (architecture_user_p payload))
  = Ok answer →
  json_loads py (strip_code_fence answer) = Ok v →
  (∀ kv, v ≠ PDict kv) →
  run py self payload w
  = (Raise AttributeError,
     {| llm_calls := llm_calls w
          ++ [llm_messages architecture_sys_p (architecture_user_p payload)];
        stdout := stdout w |}).
Proof.
  intros Hv Hrange Hm Hl Hc Hj Hno.
  assert (Hq : ∃ q, calc_qps (dau payload) (sizing_peak_concurrency payload)
                      (read_write_ratio payload) (sizing_multiplier payload) = Ok q)
    by (eexists; apply calc_qps_ok;
        [apply in_range_fits; assumption | apply valid_ratio_pos, Hv]).
  destruct Hq as [q Hq].
  unfold run, initial_state. rewrite workflow_chain.
  erewrite invoke_cons_ok;
    [|unfold _intake_validate; enter_node; unfold InputPayload_validate;
      rewrite Hv; reflexivity].
  merge_update.
  erewrite invoke_cons_ok; [|unfold _planner; enter_node; reflexivity].
  merge_update.
  erewrite invoke_cons_ok;
    [|unfold _sizing; enter_node; rewrite Hq; cbn [rbind]; reflexivity].
  merge_update.
  apply invoke_cons_raise. unfold _architecture. enter_node.
  unfold bind at 1.
  rewrite (call_llm_parsed py self client _ _ answer _ v w Hm Hl Hc Hj).
  destruct v; try reflexivity. exfalso. eapply Hno. reflexivity.
Qed.

Lemma run_raises_on_non_object_witness :
  ∃ w', run loads_list_answer (AgenticCopilot_init (Some "sk-test") service_list_answer)
            valid_payload fresh_world = (Raise AttributeError, w')
        ∧ length (llm_calls w') = 1%nat.
Proof.
  eexists. split.
  - apply (run_raises_on_non_object loads_list_answer
             (AgenticCopilot_init (Some "sk-test") service_list_answer)
             service_list_answer valid_payload "[]" (PList []) fresh_world);
      try reflexivity.
    intros kv. discriminate.
  - reflexivity.
Defined.

(** X15.  The API stage returns the dictionary with the one key
    "api_design", whose value is whatever the generation client returns, of
    any type; it sets no other field.  It raises only when the state has no
    input, and then before any request. *)
Theorem apis_passes_answer_through (py : Builtins) (self : AgenticCopilot)
    (state : AgentState) (w : World) :
  (input state = None → _apis py self state w = (Raise KeyError, w))
  ∧ (∀ inp, input state = Some inp →
       ∃ v w',
         _call_llm py self apis_sys_p (apis_user_p inp) apis_fallback w = (Ok v, w')
         ∧ _apis py self state w = (Ok (only_api_design v), w')).
Proof.
  split.
  - intros Hin. unfold _apis, get_input. rewrite Hin. reflexivity.
  - intros inp Hin.
    destruct (call_llm_returns py self apis_sys_p (apis_user_p inp) apis_fallback w)
      as (v & w' & E).
    exists v, w'. split; [exact E|].
    unfold _apis, get_input. rewrite Hin. enter_node. unfold bind. rewrite E.
    reflexivity.
Qed.

End PipelineEdges.

(** ** Answers of the service in the stages *)

Section StageAnswers.
Variable py : Builtins.
Local Open Scope py_scope.

(** X16.  When the answer to the security request parses to an object, each of
    the three fields is the value the object holds under its key, whatever
    that value is, and the stage's fallback value when the key is missing:
    a partial answer is completed field by field. *)
Theorem security_merges_partial_answer (self : AgenticCopilot)
    (client : ChatModel) (state : AgentState) (inp : InputPayload)
    (answer : string) (kv : list (string * pyval)) (w : World) :
  input state = Some inp → mock_mode self = false → llm self = Some client →
  client (length (llm_calls w))
         (llm_messages security_sys_p (security_user_p inp)) = Ok answer →
  json_loads py (strip_code_fence answer) = Ok (PDict kv) →
  ∃ upd w',
    _security py self state w = (Ok upd, w')
    ∧ security_plan upd
      = Some (from_option id
                (strs ["AuthN with OIDC"; "mTLS"; "Secrets Vault"; "WAF";
                       "Encryption at rest"])
                (assoc "security_plan" kv))
    ∧ threat_model upd
      = Some (from_option id (strs (fallback_threats inp)) (assoc "threat_model" kv))
    ∧ observability upd
      = Some (from_option id
                (strs ["Prometheus metrics"; "ELK logging"; "Jaeger tracing";
                       "PagerDuty alerts"])
                (assoc "observability" kv)).
Proof.
  intros Hin Hm Hl Hc Hj.
  unfold _security, get_input. rewrite Hin. cbn [bind lift].
  unfold bind at 1.
  rewrite (call_llm_parsed py self client _ _ answer _ (PDict kv) w Hm Hl Hc Hj).
  cbn [dict_get bind lift ret]. eexists. eexists. split; [reflexivity|].
  cbn. repeat split; reflexivity.
Qed.

Lemma get_or_truthy (v d : pyval) : truthy v = true → get_or (Some v) d = v.
Proof. intros H. unfold get_or. rewrite H. reflexivity. Qed.

(** X17.  A threat model in the state that is true but no list (a string, a
    number, an object the service has answered) makes the final stage raise
    [TypeError]: it is concatenated with the list of cautions. *)
Theorem final_raises_on_non_list_threats (self : AgenticCopilot)
    (state : AgentState) (inp : InputPayload) (v : pyval) (w : World) :
  input state = Some inp → threat_model state = Some v → truthy v = true →
  (∀ l, v ≠ PList l) →
  ∃ w', _final py self state w = (Raise TypeError, w').
Proof.
  intros Hin Htm Ht Hno.
  unfold _final, get_input. rewrite Hin. cbn [bind lift].
  destruct (call_llm_returns py self final_sys_p (final_user_p py inp state)
              (final_fallback inp) w) as (res & w' & E).
  unfold bind at 1. rewrite E. cbv zeta.
  rewrite Htm, (get_or_truthy v _ Ht).
  exists w'. destruct v; try reflexivity. exfalso. eapply Hno. reflexivity.
Qed.

(** X18.  Whenever the final stage returns, the threat model it returns is a
    list, and the risks are that list followed by the two fixed cautions. *)
Theorem final_risks_are_threats_and_cautions (self : AgenticCopilot)
    (state : AgentState) (w w' : World) (upd : AgentState) :
  _final py self state w = (Ok upd, w') →
  ∃ threats,
    threat_model upd = Some (PList threats)
    ∧ risks upd = Some (PList (threats ++ [PStr CAUTION_LLM; PStr CAUTION_COST]))
    ∧ (threat_model state = None → threats = []).
Proof.
  intros H. apply final_returned_fields in H.
  destruct H as (_ & _ & _ & _ & _ & _ & _ & _ & _ & _ & _ & _ & Htm & r & Hr & Hadd).
  destruct (get_or (threat_model state) (PList [])) as [| | | | |threats|] eqn:E;
    try discriminate.
  injection Hadd as <-. exists threats. split; [exact Htm|]. split; [exact Hr|].
  intros Hn. rewrite Hn in E. injection E as <-. reflexivity.
Qed.

End StageAnswers.

Lemma security_merges_partial_answer_witness :
  ∃ upd w',
    _security loads_empty_recommendation
      (AgenticCopilot_init (Some "sk-test") service_empty_recommendation)
      (initial_state valid_payload) fresh_world = (Ok upd, w')
    ∧ threat_model upd = Some (strs [PII_ADVISORY]).
Proof.
  destruct (security_merges_partial_answer loads_empty_recommendation
              (AgenticCopilot_init (Some "sk-test") service_empty_recommendation)
              service_empty_recommendation (initial_state valid_payload)
              valid_payload EMPTY_RECOMMENDATION
              [("recommended_option", PStr "")] fresh_world
              eq_refl eq_refl eq_refl eq_refl eq_refl)
    as (upd & w' & Hrun & _ & Htm & _).
  exists upd, w'. split; [exact Hrun | exact Htm].
Defined.

Lemma final_raises_on_non_list_threats_witness :
  ∃ w', _final strict_builtins offline_copilot state_with_text_threats fresh_world
        = (Raise TypeError, w').
Proof.
  apply (final_raises_on_non_list_threats strict_builtins offline_copilot
           state_with_text_threats valid_payload (PStr "none known") fresh_world
           eq_refl eq_refl eq_refl).
  intros l. discriminate.
Defined.

Lemma final_risks_are_threats_and_cautions_witness :
  ∃ upd threats,
    _final strict_builtins offline_copilot state_with_repeats fresh_world
    = (Ok upd, fresh_world)
    ∧ threat_model upd = Some (PList threats)
    ∧ risks upd = Some (PList (threats ++ [PStr CAUTION_LLM; PStr CAUTION_COST])).
Proof.
  eexists.
  assert (H : _final strict_builtins offline_copilot state_with_repeats fresh_world
              = (Ok ?[upd], fresh_world)) by (vm_compute; reflexivity).
  destruct (final_risks_are_threats_and_cautions strict_builtins offline_copilot
              state_with_repeats fresh_world fresh_world _ H)
    as (threats & Htm & Hr & _).
  exists threats. split; [exact H|]. split; [exact Htm | exact Hr].
Defined.

(** ** More on the removal of repeated assumptions *)

Section DedupMore.
Local Open Scope py_scope.

Lemma dedup_nodup_id (l : list string) : NoDup l → dedup l = l.
Proof.
  induction l as [|x l IH] using rev_ind; intros Hnd; [reflexivity|].
  apply NoDup_app in Hnd as (Hl & Hx & _).
  rewrite dedup_snoc, decide_False, (IH Hl); [reflexivity|].
  intros Hin. apply (Hx x Hin). apply list_elem_of_here.
Qed.

Lemma dedup_head_elem (x : string) (l : list string) : x ∈ dedup (x :: l).
Proof.
  destruct (dedup_loop_invariant (x :: l)) as (_ & Helem & _).
  apply Helem, list_elem_of_here.
Qed.

(** X19.  Removing repeated entries never lengthens a list, leaves a list without
    repetition as it is, and doing it a second time changes nothing. *)
Theorem dedup_idempotent (l : list string) :
  dedup (dedup l) = dedup l
  ∧ (NoDup l → dedup l = l)
  ∧ (length (dedup l) ≤ length l)%nat
  ∧ (dedup l = [] ↔ l = []).
Proof.
  destruct (dedup_loop_invariant l) as (_ & Helem & Hnd & Hsub). cbn zeta in *.
  fold (dedup l) in Helem, Hnd, Hsub.
  split; [apply dedup_nodup_id, Hnd|]. split; [apply dedup_nodup_id|].
  split; [apply sublist_length, Hsub|].
  split.
  - intros E. destruct l as [|x l]; [reflexivity|].
    assert (Hx : x ∈ dedup (x :: l)) by (apply Helem, list_elem_of_here).
    rewrite E in Hx. apply elem_of_nil in Hx. contradiction.
  - intros ->. reflexivity.
Qed.

Ltac merge_update :=
  unfold apply_update;
  cbn [last_value reduce_add input assumptions plan_steps sizing
       architecture_options recommended_option mermaid_flow mermaid_components
       api_design performance_plan reliability_plan security_plan threat_model
       observability summary tech_stack risks phased_rollout].

Ltac enter_node := cbn [get_input input bind lift rbind].

Ltac eval_fallback :=
  cbn [dict_get item assoc String.eqb Ascii.eqb Bool.eqb from_option id
       bind lift ret rbind render_flow render_components format_items
       py_iter strs map py_format].

(** X20.  The terminal state of a run without credential on a valid input
    in range (dau, peak rps and peak concurrency at most 10^12) holds, under
    "assumptions", the accumulated list (the intake note, then the three or
    four assumptions of the planner) followed by the list [_final] returns
    for it; so the intake note is there twice and the terminal list is never
    free of repetition. *)
Theorem offline_assumptions_repeat (py : Builtins) (self : AgenticCopilot)
    (payload : InputPayload) (w : World) :
  mock_mode self = true → valid payload → in_range payload = true →
  ∃ s planned,
    run py self payload w = (Ok s, w)
    ∧ (∃ upd, _planner (initial_state payload) = Ok upd
              ∧ assumptions upd = Some planned)
    ∧ (3 ≤ length planned ≤ 4)%nat
    ∧ assumptions s
      = Some (("Inputs normalized" :: planned)
              ++ dedup ("Inputs normalized" :: planned))
    ∧ ¬ NoDup (("Inputs normalized" :: planned)
               ++ dedup ("Inputs normalized" :: planned)).
Proof.
  intros Hm Hv Hrange.
  assert (Hq : ∃ q, calc_qps (dau payload) (sizing_peak_concurrency payload)
                      (read_write_ratio payload) (sizing_multiplier payload) = Ok q)
    by (eexists; apply calc_qps_ok;
        [apply in_range_fits; assumption | apply valid_ratio_pos, Hv]).
  destruct Hq as [q Hq].
  eexists. eexists. split.
  { unfold run, initial_state. rewrite workflow_chain.
    erewrite invoke_cons_ok;
      [|unfold _intake_validate; enter_node; unfold InputPayload_validate;
        rewrite Hv; reflexivity].
    merge_update.
    erewrite invoke_cons_ok; [|unfold _planner; enter_node; reflexivity].
    merge_update.
    erewrite invoke_cons_ok;
      [|unfold _sizing; enter_node; rewrite Hq; cbn [rbind]; reflexivity].
    merge_update.
    erewrite invoke_cons_ok;
      [|unfold _architecture; enter_node; rewrite call_llm_mock by exact Hm;
        cbn [ret]; unfold architecture_fallback; eval_fallback; reflexivity].
    merge_update.
    erewrite invoke_cons_ok;
      [|unfold _apis; enter_node; rewrite call_llm_mock by exact Hm;
        cbn [ret]; reflexivity].
    merge_update.
    erewrite invoke_cons_ok; [|unfold _perf_rel; enter_node; reflexivity].
    merge_update.
    erewrite invoke_cons_ok;
      [|unfold _security; enter_node; rewrite call_llm_mock by exact Hm;
        cbn [ret]; unfold security_fallback; eval_fallback; reflexivity].
    merge_update.
    erewrite invoke_cons_ok;
      [|unfold _final; enter_node; rewrite call_llm_mock by exact Hm;
        cbn [ret]; merge_update; unfold strs, default_options, apis_fallback;
        rewrite !get_or_list, get_or_title;
        cbn [py_add_list bind lift]; unfold final_fallback; eval_fallback;
        reflexivity].
    merge_update. cbn [invoke ret]. reflexivity. }
  split.
  { unfold _planner, initial_state. cbn [get_input input rbind].
    eexists. split; reflexivity. }
  split.
  { destruct (domain payload) as [d|]; [destruct (String.eqb d "")|];
      cbn; lia. }
  split; [reflexivity|].
  intros Hnd. apply NoDup_app in Hnd as (_ & Hdisj & _).
  apply (Hdisj "Inputs normalized").
  - apply list_elem_of_here.
  - apply dedup_head_elem.
Qed.

Lemma offline_assumptions_repeat_witness :
  ∃ s planned,
    run strict_builtins offline_copilot valid_payload fresh_world = (Ok s, fresh_world)
    ∧ (∃ upd, _planner (initial_state valid_payload) = Ok upd
              ∧ assumptions upd = Some planned)
    ∧ (3 ≤ length planned ≤ 4)%nat
    ∧ assumptions s
      = Some (("Inputs normalized" :: planned)
              ++ dedup ("Inputs normalized" :: planned))
    ∧ ¬ NoDup (("Inputs normalized" :: planned)
               ++ dedup ("Inputs normalized" :: planned)).
Proof.
  exact (offline_assumptions_repeat strict_builtins offline_copilot valid_payload
           fresh_world eq_refl eq_refl eq_refl).
Defined.

End DedupMore.

(** ** The sizing stage at the edges *)

Section SizingEdges.
Local Open Scope Q_scope.

Lemma py_round_comp (x y : Q) (n : nat) : x == y → py_round x n = py_round y n.
Proof.
  intros E. unfold py_round. cbv zeta.
  rewrite (round_half_even_comp (x * _) (y * _)) by (rewrite E; reflexivity).
  reflexivity.
Qed.

Lemma round_half_even_integer (k : Z) : round_half_even (inject_Z k) = k.
Proof.
  destruct (round_half_even_near (inject_Z k)) as [H1 H2].
  assert (L1 : inject_Z (round_half_even (inject_Z k)) < inject_Z (k + 1))
    by (rewrite inject_Z_plus; change (inject_Z 1) with 1; lra).
  assert (L2 : inject_Z (k - 1) < inject_Z (round_half_even (inject_Z k))).
  { unfold Z.sub. rewrite inject_Z_plus, inject_Z_opp.
    change (inject_Z 1) with 1. lra. }
  rewrite <- Zlt_Qlt in L1, L2. lia.
Qed.

(** A whole number of hundredths is its own rounding to two places. *)
Lemma py_round_hundredths (k : Z) :
  py_round (inject_Z k / 100) 2 == inject_Z k / 100.
Proof.
  pose proof (py_round_scaled (inject_Z k / 100) 2) as H.
  change (inject_Z (10 ^ Z.of_nat 2)) with 100 in H.
  assert (E : round_half_even (inject_Z k / 100 * 100) = k)
    by (rewrite (round_half_even_comp _ (inject_Z k)) by field;
        apply round_half_even_integer).
  apply (Qmult_inj_r _ _ 100); [discriminate|].
  eapply Qeq_trans; [exact H|]. rewrite E. field.
Qed.




(** X22.  Between ten and 10^12 daily users, without stated peak
    concurrency, the rates before the read/write split are exact: with
    c = dau // 10 the base rate is c / 10 and the peak rate is 0.18 * c for
    spiky traffic and 0.14 * c otherwise (the DAU term never decides the
    maximum, and a value this close to a whole number of hundredths rounds
    to it). *)
Theorem sizing_default_rates (state : AgentState) (inp : InputPayload) :
  input state = Some inp → valid inp →
  peak_concurrent_users inp = None → (10 <= dau inp <= RANGE_MAX)%Z →
  ∃ upd sz,
    _sizing state = Ok upd ∧ sizing upd = Some (SizingOf sz)
    ∧ base_qps (qps sz) == inject_Z (dau inp / 10) / 10
    ∧ (traffic_pattern inp = "spiky" →
         peak_qps (qps sz) == 0.18 * inject_Z (dau inp / 10))
    ∧ (traffic_pattern inp ≠ "spiky" →
         peak_qps (qps sz) == 0.14 * inject_Z (dau inp / 10)).
Proof.
  intros Hin Hv Hpc [Hd Hd'].
  pose proof (valid_ratio_pos inp Hv) as Hr.
  assert (Hc : sizing_peak_concurrency inp = (dau inp / 10)%Z)
    by (unfold sizing_peak_concurrency; rewrite Hpc; reflexivity).
  assert (Hf : fits (dau inp) (sizing_peak_concurrency inp)).
  { rewrite Hc.
    pose proof (Z.div_pos (dau inp) 10 ltac:(lia) ltac:(lia)).
    pose proof (Z.div_le_upper_bound (dau inp) 10 (dau inp) ltac:(lia) ltac:(lia)).
    apply small_fits; lia. }
  destruct (sizing_returns state inp Hin Hv Hf) as (q & upd & Hq & Hs & Hz).
  rewrite (calc_qps_ok _ _ _ _ Hf Hr) in Hq. cbv zeta in Hq. injection Hq as <-.
  exists upd. eexists. split; [exact Hs|]. split; [exact Hz|].
  cbn [qps base_qps peak_qps].
  rewrite Hc. set (c := (dau inp / 10)%Z).
  assert (Hc1 : (1 <= c)%Z) by (unfold c; apply Z.div_le_lower_bound; lia).
  assert (Hc2 : (dau inp <= 20 * c)%Z).
  { pose proof (Z.mul_succ_div_gt (dau inp) 10 ltac:(lia)). fold c in H. lia. }
  rewrite Zle_Qle in Hc1, Hc2. rewrite inject_Z_mult in Hc2.
  change (inject_Z 1) with 1 in Hc1. change (inject_Z 20) with 20 in Hc2.
  assert (Ha : inject_Z (dau inp) * 0.1 / 86400 <= inject_Z c / 10).
  { unfold Qdiv. change (/ 86400) with (1 # 86400). change (/ 10) with (1 # 10).
    change 0.1 with (1 # 10). lra. }
  pose proof (py_max_r _ _ Ha) as Hbase.
  split.
  { rewrite (py_round_comp _ (inject_Z (10 * c) / 100)).
    - rewrite py_round_hundredths, inject_Z_mult. field.
    - rewrite Hbase, inject_Z_mult. field. }
  split.
  - intros Hsp.
    assert (Hm : sizing_multiplier inp = 1.8)
      by (unfold sizing_multiplier; rewrite Hsp; reflexivity).
    rewrite Hm, (py_round_comp _ (inject_Z (18 * c) / 100)).
    + rewrite py_round_hundredths, inject_Z_mult. field.
    + rewrite Hbase, inject_Z_mult. field.
  - intros Hsp.
    assert (Hm : sizing_multiplier inp = 1.4).
    { unfold sizing_multiplier.
      destruct (String.eqb_spec (traffic_pattern inp) ""); [reflexivity|].
      destruct (String.eqb_spec (traffic_pattern inp) "spiky"); [contradiction|].
      reflexivity. }
    rewrite Hm, (py_round_comp _ (inject_Z (14 * c) / 100)).
    + rewrite py_round_hundredths, inject_Z_mult. field.
    + rewrite Hbase, inject_Z_mult. field.
Qed.

End SizingEdges.


Lemma sizing_default_rates_witness :
  ∃ upd sz,
    _sizing (initial_state valid_payload) = Ok upd ∧ sizing upd = Some (SizingOf sz)
    ∧ (base_qps (qps sz) == inject_Z (1000 / 10) / 10)%Q
    ∧ (traffic_pattern valid_payload = "spiky" →
         peak_qps (qps sz) == 0.18 * inject_Z (1000 / 10))%Q
    ∧ (traffic_pattern valid_payload ≠ "spiky" →
         peak_qps (qps sz) == 0.14 * inject_Z (1000 / 10))%Q.
Proof.
  apply (sizing_default_rates (initial_state valid_payload) valid_payload);
    try reflexivity. vm_compute. split; discriminate.
Defined.

(** ** Code fences around an answer *)

Section CodeFence.

Local Ltac push_append :=
  repeat match goal with
         | |- context [String ?c ?a +:+ ?b] =>
             change (String c a +:+ b) with (String c (a +:+ b))
         | |- context [EmptyString +:+ ?b] => change (EmptyString +:+ b) with b
         end.

Lemma list_ascii_app (a b : string) :
  String.list_ascii_of_string (a +:+ b)
  = String.list_ascii_of_string a ++ String.list_ascii_of_string b.
Proof.
  induction a as [|c a IH]; push_append; cbn; [reflexivity|].
  rewrite IH. reflexivity.
Qed.

Lemma string_of_list_app (l k : list ascii) :
  String.string_of_list_ascii (l ++ k)
  = String.string_of_list_ascii l +:+ String.string_of_list_ascii k.
Proof.
  induction l as [|c l IH]; cbn; push_append; [reflexivity|].
  rewrite IH. reflexivity.
Qed.

Lemma rev_string_app (a b : string) :
  rev_string (a +:+ b) = rev_string b +:+ rev_string a.
Proof.
  unfold rev_string. rewrite list_ascii_app, rev_app_distr, string_of_list_app.
  reflexivity.
Qed.

Lemma rev_string_involutive (s : string) : rev_string (rev_string s) = s.
Proof.
  unfold rev_string.
  rewrite String.list_ascii_of_string_of_list_ascii, rev_involutive.
  apply String.string_of_list_ascii_of_string.
Qed.

Lemma append_assoc (a b c : string) : (a +:+ b) +:+ c = a +:+ (b +:+ c).
Proof.
  induction a as [|x a IH]; push_append; [reflexivity|].
  rewrite IH. reflexivity.
Qed.

Lemma length_append (a b : string) :
  String.length (a +:+ b) = (String.length a + String.length b)%nat.
Proof.
  induction a as [|x a IH]; push_append; cbn; [reflexivity|].
  rewrite IH. reflexivity.
Qed.

Lemma prefix_append (p r : string) : String.prefix p (p +:+ r) = true.
Proof.
  induction p as [|c p IH]; push_append; cbn; [destruct r; reflexivity|].
  destruct (ascii_dec c c); [exact IH | contradiction].
Qed.

Lemma substring_skip (p r : string) (n : nat) :
  String.substring (String.length p) n (p +:+ r) = String.substring 0 n r.
Proof. induction p as [|c p IH]; push_append; cbn; [reflexivity | exact IH]. Qed.

Lemma substring_take (t r : string) :
  String.substring 0 (String.length t) (t +:+ r) = t.
Proof.
  induction t as [|c t IH]; push_append; cbn; [destruct r; reflexivity|].
  rewrite IH. reflexivity.
Qed.

(** A text between the fence marks [opening] and "```": nothing is stripped
    outside the marks, and the slice between them is the text. *)
Lemma fenced_strip (opening t : string) :
  lstrip (opening +:+ t +:+ "```") = opening +:+ t +:+ "```" →
  strip (opening +:+ t +:+ "```") = opening +:+ t +:+ "```".
Proof.
  intros Hl. unfold strip, rstrip. rewrite Hl.
  rewrite <- append_assoc, rev_string_app.
  change (rev_string "```") with "```".
  change (lstrip ("```" +:+ rev_string (opening +:+ t)))
    with ("```" +:+ rev_string (opening +:+ t)).
  change "```" with (rev_string "```") at 1.
  rewrite <- rev_string_app, rev_string_involutive. reflexivity.
Qed.

Lemma fenced_slice (opening t : string) :
  slice_inner (opening +:+ t +:+ "```") (String.length opening) 3 = t.
Proof.
  unfold slice_inner. rewrite !length_append.
  replace (String.length opening + (String.length t + String.length "```") - 3
           - String.length opening)%nat with (String.length t) by (cbn; lia).
  rewrite substring_skip. apply substring_take.
Qed.

(** X23.  An answer wrapped in a "```json" fence, or in a plain "```" fence, is
    cleaned to the text between the marks without its surrounding white
    space; an answer that does not begin with a fence is only stripped. *)
Theorem strip_code_fence_unwraps (t : string) :
  strip_code_fence ("```json" +:+ t +:+ "```") = strip t
  ∧ (startswith t "json" = false →
       strip_code_fence ("```" +:+ t +:+ "```") = strip t)
  ∧ (startswith (strip t) "```" = false → strip_code_fence t = strip t).
Proof.
  split; [|split].
  - unfold strip_code_fence. cbv zeta.
    rewrite (fenced_strip "```json" t) by reflexivity.
    unfold startswith. rewrite prefix_append.
    apply f_equal. exact (fenced_slice "```json" t).
  - intros Hj. unfold strip_code_fence. cbv zeta.
    rewrite (fenced_strip "```" t) by reflexivity.
    assert (H1 : startswith ("```" +:+ t +:+ "```") "```json" = false).
    { unfold startswith in *.
      change ("```" +:+ t +:+ "```")
        with (String "`" (String "`" (String "`" (t +:+ "```")))).
      change "```json" with (String "`" (String "`" (String "`" "json"))).
      cbn [String.prefix]. destruct (ascii_dec "`" "`"); [|contradiction].
      destruct t as [|c1 [|c2 [|c3 [|c4 t]]]]; push_append;
        cbn [String.prefix] in Hj |- *;
        repeat match goal with
               | |- context [ascii_dec ?a ?b] => destruct (ascii_dec a b)
               | H : context [ascii_dec ?a ?b] |- _ => destruct (ascii_dec a b)
               end; subst; try reflexivity; try discriminate.
      destruct t; discriminate Hj. }
    rewrite H1. unfold startswith at 1. rewrite prefix_append.
    apply f_equal. exact (fenced_slice "```" t).
  - intros Hn. unfold strip_code_fence. cbv zeta. rewrite Hn.
    assert (H1 : startswith (strip t) "```json" = false).
    { unfold startswith in *. destruct (strip t) as [|c1 [|c2 [|c3 s]]];
        cbn [String.prefix] in Hn |- *;
        repeat match goal with
               | |- context [ascii_dec ?a ?b] => destruct (ascii_dec a b)
               | H : context [ascii_dec ?a ?b] |- _ => destruct (ascii_dec a b)
               end; subst; try reflexivity; try discriminate.
      destruct s; discriminate Hn. }
    rewrite H1. reflexivity.
Qed.

End CodeFence.

(** ** The token bucket of [backend/main.py] *)

Section RateLimiter.
Local Open Scope Q_scope.

Lemma py_min_le_l (a b : Q) : py_min a b <= a.
Proof. unfold py_min. destruct (Qlt_le_dec b a); lra. Qed.

Lemma py_min_le_r (a b : Q) : py_min a b <= b.
Proof. unfold py_min. destruct (Qlt_le_dec b a); lra. Qed.

Lemma py_min_ge (c a b : Q) : c <= a → c <= b → c <= py_min a b.
Proof. unfold py_min. destruct (Qlt_le_dec b a); lra. Qed.

(** The two ways out of the limiter, with the refilled level [t]. *)
Lemma rate_limiter_step (client : option string) (now : Q) (buckets : gmap string Bucket) :
  let ip := client_ip client in
  let b0 := from_option id {| tokens := CAPACITY; ts := now |} (buckets !! ip) in
  let t := py_min CAPACITY (tokens b0 + (now - ts b0) * REFILL_RATE) in
  (t < 1
   ∧ rate_limiter client now buckets
     = (Abort RATE_LIMIT_EXCEEDED, <[ip := {| tokens := t; ts := now |}]> buckets))
  ∨ (1 <= t
     ∧ rate_limiter client now buckets
       = (Reply tt, <[ip := {| tokens := t - 1; ts := now |}]> buckets)).
Proof.
  cbv zeta. unfold rate_limiter. cbv zeta. cbn [tokens ts].
  destruct (Qlt_le_dec _ 1); [left | right]; split; auto.
Qed.

Lemma level_refill (buckets : gmap string Bucket) (ip : string) (now : Q) (k : nat) :
  (k ≤ 120)%nat → level buckets ip now k →
  let b0 := from_option id {| tokens := CAPACITY; ts := now |} (buckets !! ip) in
  py_min CAPACITY (tokens b0 + (now - ts b0) * REFILL_RATE)
  == inject_Z (Z.of_nat k).
Proof.
  intros Hk Hl. cbv zeta. unfold level in Hl.
  assert (Hq : inject_Z (Z.of_nat k) <= 120).
  { change 120 with (inject_Z 120). rewrite <- Zle_Qle. lia. }
  unfold CAPACITY, REFILL_RATE.
  destruct (buckets !! ip) as [b|]; cbn [from_option id tokens ts].
  - destruct Hl as [Hts Htk].
    apply Qle_antisym.
    + eapply Qle_trans; [apply py_min_le_r|]. rewrite Hts, Htk. lra.
    + apply py_min_ge; [exact Hq|]. rewrite Hts, Htk. lra.
  - subst k. change (inject_Z (Z.of_nat 120)) with 120.
    apply Qle_antisym.
    + apply py_min_le_l.
    + apply py_min_ge; lra.
Qed.

Lemma level_insert (buckets : gmap string Bucket) (ip : string) (now t : Q) (k : nat) :
  t == inject_Z (Z.of_nat k) →
  level (<[ip := {| tokens := t; ts := now |}]> buckets) ip now k.
Proof.
  intros Ht. unfold level. rewrite lookup_insert_eq. cbn [tokens ts].
  split; [reflexivity | exact Ht].
Qed.

Lemma serve_same_instant (client : option string) (now : Q) (n : nat) :
  ∀ (k : nat) (buckets : gmap string Bucket),
    (k ≤ 120)%nat → level buckets (client_ip client) now k →
    (serve client (replicate n now) buckets).1
    = replicate (n `min` k) (Reply tt)
      ++ replicate (n - k) (Abort RATE_LIMIT_EXCEEDED).
Proof.
  induction n as [|n IH]; intros k buckets Hk Hl; [reflexivity|].
  cbn [replicate serve fst snd].
  pose proof (level_refill buckets (client_ip client) now k Hk Hl) as Ht.
  cbv zeta in Ht.
  destruct (rate_limiter_step client now buckets) as [[Hlt E] | [Hge E]];
    cbv zeta in *; rewrite E; cbn [fst snd].
  - rewrite Ht in Hlt. change 1 with (inject_Z 1) in Hlt.
    rewrite <- Zlt_Qlt in Hlt.
    assert (k = 0%nat) by lia. subst k.
    rewrite (IH 0%nat) by (lia || (apply level_insert; exact Ht)).
    rewrite !Nat.min_0_r, !Nat.sub_0_r. reflexivity.
  - rewrite Ht in Hge. change 1 with (inject_Z 1) in Hge.
    rewrite <- Zle_Qle in Hge.
    destruct k as [|k]; [lia|].
    rewrite (IH k); [reflexivity | lia |].
    apply level_insert. rewrite Ht.
    rewrite Nat2Z.inj_succ. unfold Z.succ. rewrite inject_Z_plus.
    change (inject_Z 1) with 1. lra.
Qed.

(** X24.  A client the limiter has not seen gets a full bucket: of the requests
    it sends at one instant the first 120 are admitted and every later one
    is refused with status 429. *)
Theorem rate_limiter_burst (client : option string) (now : Q)
    (buckets : gmap string Bucket) (n : nat) :
  buckets !! client_ip client = None →
  (serve client (replicate n now) buckets).1
  = replicate (n `min` 120) (Reply tt)
    ++ replicate (n - 120) (Abort RATE_LIMIT_EXCEEDED).
Proof.
  intros Hnew. apply serve_same_instant; [lia|].
  unfold level. rewrite Hnew. reflexivity.
Qed.

Lemma rate_limiter_burst_witness :
  (serve (Some "10.0.0.7") (replicate 121 (7 # 2)) ∅).1
  = replicate (121 `min` 120) (Reply tt)
    ++ replicate (121 - 120) (Abort RATE_LIMIT_EXCEEDED).
Proof.
  apply (rate_limiter_burst (Some "10.0.0.7") (7 # 2) ∅ 121). reflexivity.
Defined.

Lemma serve_admits (client : option string) (times : list Q) :
  ∀ (k : nat) (last : Q) (buckets : gmap string Bucket),
    (length times ≤ k)%nat → (k ≤ 120)%nat →
    match buckets !! client_ip client with
    | Some b => ts b <= last ∧ inject_Z (Z.of_nat k) <= tokens b
    | None => True
    end →
    nondecreasing last times →
    (serve client times buckets).1 = replicate (length times) (Reply tt).
Proof.
  induction times as [|now rest IH]; intros k last buckets Hlen Hk Hb Hnd;
    [reflexivity|].
  cbn [length] in Hlen. destruct Hnd as [Hnow Hnd].
  destruct k as [|k]; [lia|].
  assert (Hq : inject_Z (Z.of_nat (S k)) <= 120).
  { change 120 with (inject_Z 120). rewrite <- Zle_Qle. lia. }
  assert (Hs : inject_Z (Z.of_nat (S k)) == inject_Z (Z.of_nat k) + 1).
  { rewrite Nat2Z.inj_succ. unfold Z.succ. rewrite inject_Z_plus. reflexivity. }
  assert (Hk0 : 0 <= inject_Z (Z.of_nat k)).
  { change 0 with (inject_Z 0). rewrite <- Zle_Qle. lia. }
  cbn [serve length replicate fst snd].
  destruct (rate_limiter_step client now buckets) as [[Hlt E] | [Hge E]];
    cbv zeta in *; rewrite E; cbn [fst snd].
  - exfalso. apply (Qlt_not_le _ _ Hlt).
    apply py_min_ge; [unfold CAPACITY; lra|].
    unfold REFILL_RATE.
    destruct (buckets !! client_ip client) as [b|]; cbn [from_option id tokens ts].
    + destruct Hb as [Hts Htk]. nra.
    + unfold CAPACITY. lra.
  - f_equal. apply (IH k now); [lia | lia | | exact Hnd].
    rewrite lookup_insert_eq. cbn [tokens ts]. split; [lra|].
    match goal with
    | |- _ <= ?t - 1 => assert (inject_Z (Z.of_nat (S k)) <= t); [|lra]
    end.
    apply py_min_ge; [exact Hq|].
    unfold REFILL_RATE.
    destruct (buckets !! client_ip client) as [b|]; cbn [from_option id tokens ts].
    + destruct Hb as [Hts Htk]. nra.
    + unfold CAPACITY. lra.
Qed.

(** X25.  Whatever the spacing of its requests, a client the limiter has not
    seen has its first 120 requests admitted, as long as the clock does not
    go back between them. *)
Theorem rate_limiter_admits_first_requests (client : option string)
    (first : Q) (times : list Q) (buckets : gmap string Bucket) :
  buckets !! client_ip client = None →
  (length (first :: times) ≤ 120)%nat →
  nondecreasing first times →
  (serve client (first :: times) buckets).1
  = replicate (length (first :: times)) (Reply tt).
Proof.
  intros Hnew Hlen Hnd.
  apply (serve_admits client (first :: times) 120 first buckets);
    [exact Hlen | lia | rewrite Hnew; exact I |].
  split; [lra | exact Hnd].
Qed.

Lemma rate_limiter_admits_first_requests_witness :
  (serve None (1 :: [2; 2; 7 # 2]) ∅).1
  = replicate (length (1 :: [2; 2; 7 # 2])) (Reply tt).
Proof.
  apply (rate_limiter_admits_first_requests None 1 [2; 2; 7 # 2] ∅).
  - reflexivity.
  - cbn. lia.
  - cbn. repeat split; lra.
Defined.

(** X26.  Half a second refills one token: a client whose bucket is not
    overdrawn is admitted again once half a second has passed since its
    last request, admitted or refused. *)
Theorem rate_limiter_recovers (client : option string) (now : Q)
    (buckets : gmap string Bucket) (b : Bucket) :
  buckets !! client_ip client = Some b →
  0 <= tokens b → ts b + (1 # 2) <= now →
  (rate_limiter client now buckets).1 = Reply tt.
Proof.
  intros Hb Htk Hts.
  destruct (rate_limiter_step client now buckets) as [[Hlt E] | [Hge E]];
    cbv zeta in *; rewrite E;
    [|reflexivity].
  exfalso. apply (Qlt_not_le _ _ Hlt).
  rewrite Hb. cbn [from_option id].
  apply py_min_ge; unfold CAPACITY, REFILL_RATE; lra.
Qed.

Lemma rate_limiter_recovers_witness :
  (rate_limiter (Some "10.0.0.7") 10 dry_buckets).1 = Reply tt.
Proof.
  apply (rate_limiter_recovers (Some "10.0.0.7") 10 dry_buckets
           {| tokens := 0; ts := 9 |}).
  - reflexivity.
  - cbn. lra.
  - cbn. lra.
Defined.

(** X27.  When no bucket is stamped in the future, a request leaves every
    bucket between 0 and the capacity of 120 and stamped no later than the
    request; and it changes no bucket but the one of its own client. *)
Theorem rate_limiter_bucket_bounds (client : option string) (now : Q)
    (buckets : gmap string Bucket) :
  buckets_ok now buckets →
  buckets_ok now (rate_limiter client now buckets).2
  ∧ ∀ ip, ip ≠ client_ip client →
      (rate_limiter client now buckets).2 !! ip = buckets !! ip.
Proof.
  intros Hok.
  assert (Ht : 0 <= py_min CAPACITY
                 (tokens (from_option id {| tokens := CAPACITY; ts := now |}
                            (buckets !! client_ip client))
                  + (now - ts (from_option id {| tokens := CAPACITY; ts := now |}
                                 (buckets !! client_ip client))) * REFILL_RATE)).
  { apply py_min_ge; [unfold CAPACITY; lra|]. unfold REFILL_RATE.
    destruct (buckets !! client_ip client) as [b|] eqn:Eb;
      cbn [from_option id tokens ts].
    - destruct (Hok _ _ Eb) as (H0 & _ & Hts). nra.
    - unfold CAPACITY. lra. }
  pose proof (py_min_le_l CAPACITY
                (tokens (from_option id {| tokens := CAPACITY; ts := now |}
                           (buckets !! client_ip client))
                 + (now - ts (from_option id {| tokens := CAPACITY; ts := now |}
                                (buckets !! client_ip client))) * REFILL_RATE))
    as Hle.
  destruct (rate_limiter_step client now buckets) as [[Hlt E] | [Hge E]];
    cbv zeta in *; rewrite E; cbn [snd].
  - split.
    + intros ip b. destruct (decide (ip = client_ip client)) as [->|Hne].
      * rewrite lookup_insert_eq. intros [= <-]. cbn [tokens ts].
        repeat split; lra.
      * rewrite lookup_insert_ne by congruence. apply Hok.
    + intros ip Hne. rewrite lookup_insert_ne by congruence. reflexivity.
  - split.
    + intros ip b. destruct (decide (ip = client_ip client)) as [->|Hne].
      * rewrite lookup_insert_eq. intros [= <-]. cbn [tokens ts].
        repeat split; lra.
      * rewrite lookup_insert_ne by congruence. apply Hok.
    + intros ip Hne. rewrite lookup_insert_ne by congruence. reflexivity.
Qed.

Lemma dry_buckets_ok : buckets_ok 10 dry_buckets.
Proof.
  intros ip b H. unfold dry_buckets in H.
  apply lookup_singleton_Some in H as [_ <-]. cbn [tokens ts].
  unfold CAPACITY. repeat split; lra.
Defined.

Lemma rate_limiter_bucket_bounds_witness :
  buckets_ok 10 (rate_limiter (Some "10.0.0.7") 10 dry_buckets).2
  ∧ ∀ ip, ip ≠ client_ip (Some "10.0.0.7") →
      (rate_limiter (Some "10.0.0.7") 10 dry_buckets).2 !! ip = dry_buckets !! ip.
Proof.
  apply (rate_limiter_bucket_bounds (Some "10.0.0.7") 10 dry_buckets).
  exact dry_buckets_ok.
Defined.

End RateLimiter.

(** ** The endpoints of [backend/main.py] *)

Section Endpoints.


















End Endpoints.

(** ** Instances on the sample inputs *)

Lemma apis_passes_answer_through_witness :
  (∃ w', _apis loads_list_answer
               (AgenticCopilot_init (Some "sk-test") service_list_answer)
               (initial_state valid_payload) fresh_world
         = (Ok (only_api_design (PList [])), w')
         ∧ length (llm_calls w') = 1%nat)
  ∧ _apis strict_builtins offline_copilot (initial_state valid_payload) fresh_world
    = (Ok (only_api_design apis_fallback), fresh_world).
Proof.
  split.
  - destruct (proj2 (apis_passes_answer_through loads_list_answer
                       (AgenticCopilot_init (Some "sk-test") service_list_answer)
                       (initial_state valid_payload) fresh_world)
                    valid_payload eq_refl) as (v & w' & E & H).
    vm_compute in E. injection E as <- <-.
    eexists. split; [exact H | reflexivity].
  - destruct (proj2 (apis_passes_answer_through strict_builtins offline_copilot
                       (initial_state valid_payload) fresh_world)
                    valid_payload eq_refl) as (v & w' & E & H).
    vm_compute in E. injection E as <- <-. exact H.
Defined.

Lemma dedup_idempotent_witness :
  dedup (dedup ["a"; "b"]) = dedup ["a"; "b"] ∧ dedup ["a"; "b"] = ["a"; "b"].
Proof.
  destruct (dedup_idempotent ["a"; "b"]) as (H1 & H2 & _).
  split; [exact H1|]. apply H2.
  apply (bool_decide_unpack (NoDup ["a"; "b"])). reflexivity.
Defined.

Lemma strip_code_fence_unwraps_witness :
  strip_code_fence "```json[1]```" = "[1]"
  ∧ strip_code_fence "```[1]```" = "[1]"
  ∧ strip_code_fence " [1] " = "[1]".
Proof.
  destruct (strip_code_fence_unwraps "[1]") as (H1 & H2 & _).
  destruct (strip_code_fence_unwraps " [1] ") as (_ & _ & H3).
  split; [exact H1|]. split; [exact (H2 eq_refl) | exact (H3 eq_refl)].
Defined.
